(** * The OHTTP privacy gateway: frontend, handler chain and start-up

    A shallow embedding of the Go sources: the request state machine of
    gateway.go ([gatewayHandler], [ohttpGatewayHandler], the two
    key-discovery handlers), the handler chain of the handlers file
    ([DefaultEncapsulationHandler], [MetadataEncapsulationHandler],
    [BinaryHTTPAppHandler], [FilteredHttpRequestHandler]) and the key
    derivation of [main].

    Go code works on a response writer, a per-request metrics bag and an
    outbound HTTP client; here these live in one [World] record that every
    handler threads through the monad [M].  A Go [panic] is the second
    outcome of [M]; it keeps the world reached so far. *)

From Stdlib Require Import ZArith String Ascii List Lia Bool.
From stdpp Require Import base option list gmap strings pretty.

Open Scope Z_scope.
Open Scope string_scope.

(** ** Bytes and strings *)

(** [[]byte]: every element is in [0, 256). *)
Abbreviation bytes := (list Z).

(** Conversion to [uint8]: wrap-around modulo 2^8. *)
Definition uint8 (z : Z) : Z := z mod 256.

(** [[]byte(s)] for a string [s]. *)
Definition bytes_of_string (s : string) : bytes :=
  map (fun a => Z.of_N (N_of_ascii a)) (list_ascii_of_string s).

(** ** net/http, as far as the gateway uses it *)

Definition MethodGet : string := "GET".
Definition MethodPost : string := "POST".

Definition StatusOK : Z := 200.
Definition StatusBadRequest : Z := 400.
Definition StatusUnauthorized : Z := 401.
Definition StatusForbidden : Z := 403.
Definition StatusInternalServerError : Z := 500.

(** [http.StatusText], on the codes the gateway produces; the empty
    string for an unknown code, as in Go. *)
Definition StatusText (code : Z) : string :=
  if decide (code = StatusOK) then "OK"
  else if decide (code = StatusBadRequest) then "Bad Request"
  else if decide (code = StatusUnauthorized) then "Unauthorized"
  else if decide (code = StatusForbidden) then "Forbidden"
  else if decide (code = StatusInternalServerError) then "Internal Server Error"
  else "".

(** [http.Header] is [map[string][]string].  The keys the gateway uses
    are written in canonical form already. *)
Abbreviation Header := (gmap string (list string)).

Definition Header_Get (h : Header) (key : string) : string :=
  match h !! key with
  | Some (v :: _) => v
  | _ => ""
  end.

Definition Header_Set (h : Header) (key value : string) : Header :=
  <[key := [value]]> h.

Definition Header_Del (h : Header) (key : string) : Header := delete key h.

(** [*http.Request]: outer requests reaching the frontend and inner
    requests decoded from binary HTTP.  [Body] is what [ioutil.ReadAll]
    yields: [None] is a read error. *)
Record Request := {
  Method : string;
  Path : string;
  ReqHeader : Header;
  Host : string;
  Body : option bytes
}.

(** [*http.Response] of the outbound client. *)
Record Response := {
  StatusCode : Z;
  RespBody : bytes
}.

(** [http.ResponseWriter]: the header map the handler edits, the status
    and headers sent with the first [WriteHeader] ([Code = None] before
    it), and the body written so far.  What the server adds on its own
    (content sniffing, dates) is not part of the handler and is left
    out. *)
Record ResponseWriter := {
  HeaderMap : Header;
  Code : option Z;
  Sent : Header;
  Written : bytes
}.

Definition NewRecorder : ResponseWriter :=
  {| HeaderMap := ∅; Code := None; Sent := ∅; Written := [] |}.

Definition SetHeader (key value : string) (w : ResponseWriter) : ResponseWriter :=
  {| HeaderMap := Header_Set (HeaderMap w) key value; Code := Code w;
     Sent := Sent w; Written := Written w |}.

Definition DelHeader (key : string) (w : ResponseWriter) : ResponseWriter :=
  {| HeaderMap := Header_Del (HeaderMap w) key; Code := Code w;
     Sent := Sent w; Written := Written w |}.

(** Only the first [WriteHeader] counts; later ones are superfluous. *)
Definition ResponseWriter_WriteHeader (code : Z) (w : ResponseWriter) : ResponseWriter :=
  match Code w with
  | Some _ => w
  | None => {| HeaderMap := HeaderMap w; Code := Some code;
               Sent := HeaderMap w; Written := Written w |}
  end.

(** [Write] sends the header with status 200 when none was sent yet. *)
Definition ResponseWriter_Write (b : bytes) (w : ResponseWriter) : ResponseWriter :=
  let w' := ResponseWriter_WriteHeader StatusOK w in
  {| HeaderMap := HeaderMap w'; Code := Code w';
     Sent := Sent w'; Written := Written w' ++ b |}.

(** [http.Error(w, error, code)]. *)
Definition http_Error (error : string) (code : Z) (w : ResponseWriter) : ResponseWriter :=
  let w1 := DelHeader "Content-Length" w in
  let w2 := SetHeader "Content-Type" "text/plain; charset=utf-8" w1 in
  let w3 := SetHeader "X-Content-Type-Options" "nosniff" w2 in
  let w4 := ResponseWriter_WriteHeader code w3 in
  ResponseWriter_Write (bytes_of_string (error ++ String "010"%char "")) w4.


(** ** The world of one request and the handler monad *)

(** [MockMetrics] of the tests: the event name and the labels fired. *)
Record MockMetrics := {
  eventName : string;
  resultLabels : gmap string bool
}.

Record World := {
  metrics : MockMetrics;         (* the bag of this request *)
  w : ResponseWriter;       (* the outer response *)
  outbound : list Request;  (* requests given to client.Do, oldest first *)
  chunks : bytes;                (* bytes written through the chunk writer *)
  rng : Z                        (* the draw of the freshly seeded math/rand source *)
}.

Definition set_metrics (m : MockMetrics) (σ : World) : World :=
  {| metrics := m; w := w σ; outbound := outbound σ; chunks := chunks σ; rng := rng σ |}.
Definition set_w (rw : ResponseWriter) (σ : World) : World :=
  {| metrics := metrics σ; w := rw; outbound := outbound σ; chunks := chunks σ; rng := rng σ |}.
Definition set_outbound (l : list Request) (σ : World) : World :=
  {| metrics := metrics σ; w := w σ; outbound := l; chunks := chunks σ; rng := rng σ |}.
Definition set_chunks (b : bytes) (σ : World) : World :=
  {| metrics := metrics σ; w := w σ; outbound := outbound σ; chunks := b; rng := rng σ |}.

Inductive Result (A : Type) : Type :=
| Ok (a : A) (σ : World)
| Panic (msg : string) (σ : World).
Arguments Ok {A} a σ.
Arguments Panic {A} msg σ.

Definition M (A : Type) : Type := World -> Result A.

#[global] Instance M_ret : MRet M := fun A a σ => Ok a σ.
#[global] Instance M_bind : MBind M := fun A B f m σ =>
  match m σ with
  | Ok a σ' => f a σ'
  | Panic msg σ' => Panic msg σ'
  end.

Definition modify (f : World -> World) : M unit := fun σ => Ok tt (f σ).

(** The world a computation ends in, returned or panicked. *)
Definition world_of {A : Type} (res : Result A) : World :=
  match res with
  | Ok _ σ => σ
  | Panic _ σ => σ
  end.

Definition returned {A : Type} (res : Result A) : bool :=
  match res with
  | Ok _ _ => true
  | Panic _ _ => false
  end.

(** What a test observes after [handler.ServeHTTP(rr, request)]. *)
Definition status {A : Type} (res : Result A) : option Z := Code (w (world_of res)).
Definition sent {A : Type} (res : Result A) : Header := Sent (w (world_of res)).
Definition body {A : Type} (res : Result A) : bytes := Written (w (world_of res)).
Definition labels {A : Type} (res : Result A) : gmap string bool :=
  resultLabels (metrics (world_of res)).
Definition fired {A : Type} (res : Result A) (label : string) : Prop :=
  labels res !! label = Some true.

(** ** Metrics *)

(** [MockMetricsFactory.Create]. *)
Definition Create (event : string) : M unit :=
  modify (set_metrics {| eventName := event; resultLabels := ∅ |}).

(** [MockMetrics.Fire]: firing a label twice panics. *)
Definition Fire (result : string) : M unit := fun σ =>
  match resultLabels (metrics σ) !! result with
  | Some _ => Panic "Metrics.Fire called twice for the same result" σ
  | None =>
      Ok tt (set_metrics {| eventName := eventName (metrics σ);
                            resultLabels := <[result := true]> (resultLabels (metrics σ)) |} σ)
  end.

(** [MockMetrics.ResponseStatus]: [Fire] of ["%s_response_status_%d"]. *)
Definition ResponseStatus (prefix : string) (status : Z) : M unit :=
  Fire (prefix ++ "_response_status_" ++ pretty status).

(** ** The OHTTP module (github.com/chris-wood/ohttp-go) and HPKE

    The gateway consumes both through their exported operations.  The
    records follow the data model of the design document; the primitives
    themselves (key derivation, HPKE, the binary HTTP codec, the request
    dump) are the fields of [Library]; the general statements quantify
    over it and so hold for whatever the primitives compute. *)

(** Identifiers of circl/hpke used by [main] and the tests (RFC 9180
    code points; 0x0030 is the X25519+Kyber768 draft). *)
Definition KEM_X25519_HKDF_SHA256 : Z := 0x0020.
Definition KEM_X25519_KYBER768_DRAFT00 : Z := 0x0030.
Definition KDF_HKDF_SHA256 : Z := 0x0001.
Definition AEAD_AES128GCM : Z := 0x0001.

(** Modelled from the spec: [ohttp.PrivateConfig], whose declaration is in
    the OHTTP module: key ID, the algorithm triple and the private key,
    kept as the seed it is derived from. *)
Record PrivateConfig := {
  key_id : Z;
  kem_id : Z;
  kdf_id : Z;
  aead_id : Z;
  seed : bytes
}.

(** Modelled from the spec: the public form of a configuration. *)
Record PublicConfig := {
  pub_key_id : Z;
  pub_kem_id : Z;
  pub_kdf_id : Z;
  pub_aead_id : Z;
  pub_key : bytes
}.

(** Modelled from the spec: [ohttp.EncapsulatedRequest], wire layout
    key_id, kem_id, kdf_id, aead_id, enc, sealed payload. *)
Record EncapsulatedRequest := {
  req_key_id : Z;
  req_kem_id : Z;
  req_kdf_id : Z;
  req_aead_id : Z;
  enc : bytes;
  ct : bytes
}.

(** Modelled from the spec: [ohttp.EncapsulatedResponse], on the wire the
    nonce followed by the sealed payload. *)
Record EncapsulatedResponse := {
  nonce : bytes;
  sealed : bytes
}.

Definition EncapsulatedResponse_Marshal (r : EncapsulatedResponse) : bytes :=
  nonce r ++ sealed r.

(** The context returned by decapsulation, by its one method. *)
Record DecapsulateRequestContext := {
  EncapsulateResponse : bytes -> option EncapsulatedResponse
}.

Class Library := {
  (* KEM key derivation: the public key of a seed *)
  DeriveKeyPair : Z -> bytes -> bytes;
  (* PublicConfig.Marshal *)
  PublicConfig_Marshal : PublicConfig -> bytes;
  (* HPKE receiver set-up and opening of the sealed payload *)
  OpenRequest : PrivateConfig -> EncapsulatedRequest ->
                option (bytes * DecapsulateRequestContext);
  (* ohttp.UnmarshalEncapsulatedRequest *)
  UnmarshalEncapsulatedRequest : bytes -> option EncapsulatedRequest;
  (* ohttp.UnmarshalBinaryRequest *)
  UnmarshalBinaryRequest : bytes -> option Request;
  (* ohttp.CreateBinaryResponse followed by BinaryResponse.Write *)
  EncodeBinaryResponse : Response -> option bytes;
  (* httputil.DumpRequest *)
  DumpRequest : Request -> bool -> option bytes
}.

(** [ohttp.Gateway], by the methods the repository calls.  An error
    result is [None]. *)
Record Gateway := {
  MatchesConfig : EncapsulatedRequest -> bool;
  DecapsulateRequest : EncapsulatedRequest -> option (bytes * DecapsulateRequestContext);
  Config : Z -> option PublicConfig;
  MarshalConfigs : bytes
}.

(** [PrivateConfig.Config]: the public form. *)
Definition PrivateConfig_Config `{Library} (c : PrivateConfig) : PublicConfig :=
  {| pub_key_id := key_id c; pub_kem_id := kem_id c; pub_kdf_id := kdf_id c;
     pub_aead_id := aead_id c; pub_key := DeriveKeyPair (kem_id c) (seed c) |}.

(** The stored configuration of a key ID. *)
Definition lookupConfig (configs : list PrivateConfig) (id : Z) : option PrivateConfig :=
  find (fun c => bool_decide (key_id c = id)) configs.

(** Modelled from the spec: [ohttp.NewDefaultGateway], the store of the
    private configurations in the order given.  [Config] selects by key
    ID, [MarshalConfigs] concatenates the public forms in store order, and
    decapsulation opens the request with the configuration of its key ID.
    [MatchesConfig] looks at the key ID only: the repository's test
    TestGatewayHandlerWithInvalidKey sends key ID 1 under a KEM other than
    the stored one and asserts the label decapsulation_failed with status
    400, which [Handle] reaches only after [MatchesConfig] has accepted
    the request. *)
Definition NewDefaultGateway `{Library} (configs : list PrivateConfig) : Gateway :=
  {| MatchesConfig := fun req =>
       match lookupConfig configs (req_key_id req) with
       | Some _ => true
       | None => false
       end;
     DecapsulateRequest := fun req =>
       match lookupConfig configs (req_key_id req) with
       | Some c => OpenRequest c req
       | None => None
       end;
     Config := fun id => PrivateConfig_Config <$> lookupConfig configs id;
     MarshalConfigs :=
       concat (map (fun c => PublicConfig_Marshal (PrivateConfig_Config c)) configs) |}.

(** ** The handlers file *)

(** The sentinel errors; [ErrTransport] stands for an error of another
    package, such as the one [client.Do] returns. *)
Inductive error : Type :=
| ErrConfigMismatch
| ErrEncapsulation
| ErrPayloadMarshalling
| ErrGatewayTargetForbidden
| ErrGatewayInternalServer
| ErrTransport (msg : string).

(** Errors of decapsulation and encapsulation become the status of the
    gateway response (401 and 400). *)
Definition ErrEncapsulationToGatewayStatusCode (e : error) : Z :=
  match e with
  | ErrConfigMismatch => StatusUnauthorized
  | ErrEncapsulation => StatusBadRequest
  | _ => StatusBadRequest
  end.

(** Errors after decapsulation, as the status of the payload. *)
Definition payloadErrorToPayloadStatusCode (e : error) : Z :=
  match e with
  | ErrPayloadMarshalling => StatusBadRequest
  | ErrGatewayTargetForbidden => StatusForbidden
  | ErrGatewayInternalServer => StatusInternalServerError
  | _ => 400
  end.

(** A Go result [(ohttp.EncapsulatedResponse, error)]. *)
Abbreviation EncapsulationResult := (error + EncapsulatedResponse)%type.

Definition EncapsulationFail (err : error) : EncapsulationResult := inl err.

Definition metricsResultConfigurationMismatch : string := "config_mismatch".
Definition metricsResultDecapsulationFailed : string := "decapsulation_failed".
Definition metricsResultEncapsulationFailed : string := "encapsulation_failed".
Definition metricsResultContentDecodingFailed : string := "content_decode_failed".
Definition metricsResultContentEncodingFailed : string := "content_encode_failed".
Definition metricsResultRequestTranslationFailed : string := "request_translate_failed".
Definition metricsResultResponseTranslationFailed : string := "response_translate_failed".
Definition metricsResultTargetRequestForbidden : string := "request_forbidden".
Definition metricsResultTargetRequestFailed : string := "request_failed".
Definition metricsResultSuccess : string := "success".
Definition metricsPayloadStatusPrefix : string := "gateway_payload".

(** The three handler interfaces. *)
Abbreviation EncapsulationHandler := (Request -> EncapsulatedRequest -> M EncapsulationResult).
Abbreviation AppContentHandler := (bytes -> M (option error)).
Abbreviation HttpRequestHandler := (Request -> M (error + Response)).

(** [EncapsulatedChunkWriter.Write]: the bytes go to the underlying
    writer, the [chunks] of the world. *)
Definition EncapsulatedChunkWriter_Write (b : bytes) : M unit :=
  modify (fun σ => set_chunks (chunks σ ++ b) σ).

(** [BinaryResponseEncoder.Encode]. *)
Definition BinaryResponseEncoder_Encode `{Library} (res : Response) : M (option error) :=
  match EncodeBinaryResponse res with
  | Some b => EncapsulatedChunkWriter_Write b ;; mret None
  | None => mret (Some (ErrTransport "encode"))
  end.

Record FilteredHttpRequestHandler := {
  client : Request -> string + Response;   (* client.Do: an error text or a response *)
  allowedOrigins : option (gmap string bool);
  logForbiddenErrors : bool
}.

(** [FilteredHttpRequestHandler.Handle]. *)
Definition FilteredHttpRequestHandler_Handle (h : FilteredHttpRequestHandler) : HttpRequestHandler :=
  fun req =>
  let fetch : M (error + Response) :=
    modify (fun σ => set_outbound (outbound σ ++ [req]) σ) ;;
    match client h req with
    | inl msg => Fire metricsResultTargetRequestFailed ;; mret (inl (ErrTransport msg))
    | inr resp => Fire metricsResultSuccess ;; mret (inr resp)
    end in
  match allowedOrigins h with
  | Some origins =>
      match origins !! Host req with
      | None => Fire metricsResultTargetRequestForbidden ;; mret (inl ErrGatewayTargetForbidden)
      | Some _ => fetch
      end
  | None => fetch
  end.

Record BinaryHTTPAppHandler := {
  httpHandler : HttpRequestHandler
}.

(** [BinaryHTTPAppHandler.Handle]. *)
Definition BinaryHTTPAppHandler_Handle `{Library} (h : BinaryHTTPAppHandler) : AppContentHandler :=
  fun binaryRequest =>
  match UnmarshalBinaryRequest binaryRequest with
  | None => Fire metricsResultContentDecodingFailed ;; mret (Some ErrPayloadMarshalling)
  | Some req =>
      res ← httpHandler h req;
      match res with
      | inl err =>
          match err with
          | ErrGatewayTargetForbidden => mret (Some ErrGatewayTargetForbidden)
          | _ => mret (Some ErrGatewayInternalServer)
          end
      | inr resp =>
          encErr ← BinaryResponseEncoder_Encode resp;
          match encErr with
          | Some _ => Fire metricsResultContentEncodingFailed ;; mret (Some ErrPayloadMarshalling)
          | None => Fire (metricsPayloadStatusPrefix ++ "200") ;; mret None
          end
      end
  end.

(** Modelled from the spec: [EchoAppHandler], whose declaration is commented
    out in the handlers file although [main] and the tests still build it.
    It returns the plaintext unmodified and always succeeds; as in the
    commented-out text it takes the request bytes, fires the label success
    and returns the bytes with a nil error. *)
Definition EchoAppHandler_Handle (binaryRequest : bytes) : M (bytes * option error) :=
  Fire metricsResultSuccess ;; mret (binaryRequest, None).

Record DefaultEncapsulationHandler := {
  gateway : Gateway;
  appHandler : AppContentHandler
}.

(** [DefaultEncapsulationHandler.Handle].  Two identifiers of the body are
    not declared in the function in this revision: the writer [w] under
    the chunk writer, kept here as the [chunks] of the world, apart from
    the outer response; and [binaryResponse], the bytes the last step
    seals, a parameter of the model. *)
Definition DefaultEncapsulationHandler_Handle (binaryResponse : bytes)
    (h : DefaultEncapsulationHandler) : EncapsulationHandler :=
  fun outerRequest encapsulatedReq =>
  if negb (MatchesConfig (gateway h) encapsulatedReq) then
    Fire metricsResultConfigurationMismatch ;; mret (EncapsulationFail ErrConfigMismatch)
  else
    match DecapsulateRequest (gateway h) encapsulatedReq with
    | None => Fire metricsResultDecapsulationFailed ;; mret (EncapsulationFail ErrEncapsulation)
    | Some (binaryRequest, context) =>
        appErr ← appHandler h binaryRequest;
        match appErr with
        | Some err => mret (EncapsulationFail err)
        | None =>
            match EncapsulateResponse context binaryResponse with
            | None => Fire metricsResultEncapsulationFailed ;; mret (EncapsulationFail ErrEncapsulation)
            | Some encapsulatedResponse => mret (inr encapsulatedResponse)
            end
        end
    end.

(** [MetadataEncapsulationHandler.Handle]; the handler holds the gateway
    only. *)
Definition MetadataEncapsulationHandler_Handle `{Library} (gw : Gateway) : EncapsulationHandler :=
  fun outerRequest encapsulatedReq =>
  if negb (MatchesConfig gw encapsulatedReq) then
    Fire metricsResultConfigurationMismatch ;; mret (EncapsulationFail ErrConfigMismatch)
  else
    match DecapsulateRequest gw encapsulatedReq with
    | None => Fire metricsResultDecapsulationFailed ;; mret (EncapsulationFail ErrEncapsulation)
    | Some (_, context) =>
        match DumpRequest outerRequest false with
        | None => mret (EncapsulationFail ErrGatewayInternalServer)
        | Some binaryResponse =>
            match EncapsulateResponse context binaryResponse with
            | None => Fire metricsResultEncapsulationFailed ;; mret (EncapsulationFail ErrEncapsulation)
            | Some encapsulatedResponse => Fire metricsResultSuccess ;; mret (inr encapsulatedResponse)
            end
        end
    end.

(** ** gateway.go *)

Record gatewayResource := {
  verbose : bool;
  legacyKeyID : Z;
  resGateway : Gateway;     (* the field gateway *)
  encapsulationHandlers : gmap string EncapsulationHandler;
  debugResponse : bool
}.

Definition ohttpRequestContentType : string := "message/ohttp-req".
Definition ohttpResponseContentType : string := "message/ohttp-res".
Definition ohttpChunkedRequestContentType : string := "message/ohttp-chunked-req".
Definition ohttpChunkedResponseContentType : string := "message/ohttp-chunked-res".
Definition twelveHours : Z := 12 * 3600.
Definition twentyFourHours : Z := 24 * 3600.

Definition metricsEventGatewayRequest : string := "gateway_request".
Definition metricsEventConfigsRequest : string := "configs_request".
Definition metricsResultConfigsUnavalable : string := "configs_unavailable".
Definition metricsResultInvalidMethod : string := "invalid_method".
Definition metricsResultInvalidContentType : string := "invalid_content_type".
Definition metricsResultInvalidContent : string := "invalid_content".

(** Edits of the outer response. *)
Definition onWriter (f : ResponseWriter -> ResponseWriter) : M unit :=
  modify (fun σ => set_w (f (w σ)) σ).

(** [rand.Intn(n)] right after [rand.Seed(time.Now().UnixNano())]: some
    integer of [0, n), picked by the draw of the world; it panics for
    [n <= 0]. *)
Definition rand_Intn (n : Z) : M Z := fun σ =>
  if decide (n <= 0) then Panic "invalid argument to Intn" σ
  else Ok (rng σ mod n) σ.

(** [gatewayResource.httpError]; the log lines of verbose mode are not
    part of the world. *)
Definition httpError (s : gatewayResource) (status : Z) (debugMessage : string)
    (metricsPrefix : string) : M unit :=
  (if debugResponse s
   then onWriter (http_Error debugMessage status)
   else onWriter (http_Error (StatusText status) status)) ;;
  ResponseStatus metricsPrefix status.

(** [gatewayResource.ohttpGatewayHandler].  The source names the status
    mapping encapsulationErrorToGatewayStatusCode; the handlers file
    declares it as [ErrEncapsulationToGatewayStatusCode]. *)
Definition ohttpGatewayHandler `{Library} (s : gatewayResource) (r : Request) : M unit :=
  match encapsulationHandlers s !! Path r with
  | None => httpError s StatusBadRequest "Unknown handler" (Method r)
  | Some encapHandler =>
      match Body r with
      | None =>
          Fire metricsResultInvalidContent ;;
          httpError s StatusBadRequest "Reading request body failed" (Method r)
      | Some encryptedMessageBytes =>
          match UnmarshalEncapsulatedRequest encryptedMessageBytes with
          | None =>
              Fire metricsResultInvalidContent ;;
              httpError s StatusBadRequest "Reading request body failed" (Method r)
          | Some encapsulatedReq =>
              res ← encapHandler r encapsulatedReq;
              match res with
              | inl err =>
                  let errorCode := ErrEncapsulationToGatewayStatusCode err in
                  httpError s errorCode (StatusText errorCode) (Method r)
              | inr encapsulatedResp =>
                  let packedResponse := EncapsulatedResponse_Marshal encapsulatedResp in
                  onWriter (SetHeader "Content-Type" ohttpResponseContentType) ;;
                  onWriter (SetHeader "Connection" "Keep-Alive") ;;
                  onWriter (ResponseWriter_Write packedResponse) ;;
                  ResponseStatus (Method r) StatusOK
              end
          end
      end
  end.

(** [gatewayResource.ohttpChunkedGatewayHandler]: a stub. *)
Definition ohttpChunkedGatewayHandler (s : gatewayResource) (r : Request) : M unit :=
  mret tt.

(** [gatewayResource.gatewayHandler].  Neither arm of the switch on the
    content type returns: control continues with the two statements after
    the switch. *)
Definition gatewayHandler `{Library} (s : gatewayResource) (r : Request) : M unit :=
  Create metricsEventGatewayRequest ;;
  if decide (Method r ≠ MethodPost) then
    Fire metricsResultInvalidMethod ;;
    httpError s StatusBadRequest ("Invalid method: " ++ Method r) (Method r)
  else
    (if decide (Header_Get (ReqHeader r) "Content-Type" = ohttpRequestContentType)
     then ohttpGatewayHandler s r
     else if decide (Header_Get (ReqHeader r) "Content-Type" = ohttpChunkedRequestContentType)
     then ohttpChunkedGatewayHandler s r
     else mret tt) ;;
    Fire metricsResultInvalidContentType ;;
    httpError s StatusBadRequest
      ("Invalid content type: " ++ Header_Get (ReqHeader r) "Content-Type") (Method r).

(** [gatewayResource.legacyConfigHandler]. *)
Definition legacyConfigHandler `{Library} (s : gatewayResource) (r : Request) : M unit :=
  Create metricsEventConfigsRequest ;;
  match Config (resGateway s) (legacyKeyID s) with
  | None =>
      Fire metricsResultConfigsUnavalable ;;
      httpError s StatusInternalServerError "Config unavailable" (Method r)
  | Some config =>
      n ← rand_Intn twentyFourHours;
      let maxAge := twelveHours + n in
      onWriter (SetHeader "Cache-Control" ("max-age=" ++ pretty maxAge ++ ", private")) ;;
      onWriter (ResponseWriter_Write (PublicConfig_Marshal config)) ;;
      ResponseStatus (Method r) StatusOK
  end.

(** [gatewayResource.configHandler]. *)
Definition configHandler (s : gatewayResource) (r : Request) : M unit :=
  Create metricsEventConfigsRequest ;;
  n ← rand_Intn twentyFourHours;
  let maxAge := twelveHours + n in
  onWriter (SetHeader "Cache-Control" ("max-age=" ++ pretty maxAge ++ ", private")) ;;
  onWriter (SetHeader "Content-Type" "application/ohttp-keys") ;;
  onWriter (ResponseWriter_Write (MarshalConfigs (resGateway s))) ;;
  ResponseStatus (Method r) StatusOK.

(** [handler.ServeHTTP(rr, request)] on a new recorder; [draw] is what the
    random source yields during the request. *)
Definition newWorld (draw : Z) : World :=
  {| metrics := {| eventName := ""; resultLabels := ∅ |};
     w := NewRecorder; outbound := []; chunks := []; rng := draw |}.

Definition ServeHTTP (handler : Request -> M unit) (r : Request) (draw : Z) : Result unit :=
  handler r (newWorld draw).

(** ** main: the configurations built at start-up *)

Definition defaultSeedLength : nat := 32.

(** Modelled from the spec: [ohttp.NewConfigFromSeed] of the OHTTP module;
    construction is deterministic in its arguments and fails ([None]) when
    the seed length is not the expected one. *)
Definition NewConfigFromSeed (keyID kemID kdfID aeadID : Z) (seed : bytes)
    : option PrivateConfig :=
  if decide (length seed = defaultSeedLength)
  then Some {| key_id := keyID; kem_id := kemID; kdf_id := kdfID;
               aead_id := aeadID; seed := seed |}
  else None.

(** [uint8((configID - 128) % 255)] on a [uint8] configID: the
    subtraction wraps around in 8 bits, then the remainder is taken. *)
Definition legacyConfigID (configID : Z) : Z :=
  uint8 (uint8 (configID - 128) mod 255).

(** [seed[len(seed)-1] ^= 0xFF]; indexing an empty slice panics
    ([None]). *)
Definition xorLastByte (seed : bytes) : option bytes :=
  let i := (length seed - 1)%nat in
  match seed !! i with
  | Some b => Some (<[i := Z.lxor b 0xFF]> seed)
  | None => None
  end.

(** The two configurations of [main], from the value of CONFIGURATION_ID
    and the seed; [None] when start-up stops with a fatal error. *)
Definition mainConfigs (CONFIGURATION_ID : Z) (seed : bytes)
    : option (PrivateConfig * PrivateConfig) :=
  let configID := uint8 CONFIGURATION_ID in
  config ← NewConfigFromSeed configID KEM_X25519_KYBER768_DRAFT00
             KDF_HKDF_SHA256 AEAD_AES128GCM seed;
  seed' ← xorLastByte seed;
  legacyConfig ← NewConfigFromSeed (legacyConfigID configID) KEM_X25519_HKDF_SHA256
                   KDF_HKDF_SHA256 AEAD_AES128GCM seed';
  Some (config, legacyConfig).

(** ** A small instance of the library, to run the handlers

    The primitives of [Library] are outside the repository.  The instance
    below stands in for them where a statement is run on concrete inputs:
    a sealed payload is the plaintext followed by a one-byte checksum, it
    opens under the configuration whose suite and public key the request
    names, and an inner request is the bytes of its host name.  No general
    statement depends on it. *)

Definition checksum (m : bytes) : Z := foldr Z.add 0 m mod 256.

Definition be16 (z : Z) : bytes := [z / 256 mod 256; z mod 256].

Definition toyPublicKey (kem : Z) (sd : bytes) : bytes :=
  map (fun b => Z.lxor b 0x5C) sd.

Definition toySeal (m : bytes) : bytes := (m ++ [checksum m])%list.

Definition toyUnseal (c : bytes) : option bytes :=
  match reverse c with
  | [] => None
  | t :: rm => if decide (t = checksum (reverse rm)) then Some (reverse rm) else None
  end.

Definition toyContext (c : PrivateConfig) : DecapsulateRequestContext :=
  {| EncapsulateResponse := fun m => Some {| nonce := [key_id c]; sealed := toySeal m |} |}.

Definition toyOpen (c : PrivateConfig) (req : EncapsulatedRequest)
    : option (bytes * DecapsulateRequestContext) :=
  if decide (req_kem_id req = kem_id c ∧ req_kdf_id req = kdf_id c ∧
             req_aead_id req = aead_id c ∧ enc req = toyPublicKey (kem_id c) (seed c))
  then m ← toyUnseal (ct req); Some (m, toyContext c)
  else None.

Definition toyMarshalConfig (pc : PublicConfig) : bytes :=
  ([pub_key_id pc] ++ be16 (pub_kem_id pc) ++ pub_key pc ++
   be16 4 ++ be16 (pub_kdf_id pc) ++ be16 (pub_aead_id pc))%list.

Definition toyUnmarshalEncapsulatedRequest (b : bytes) : option EncapsulatedRequest :=
  match b with
  | k :: k1 :: k0 :: d1 :: d0 :: a1 :: a0 :: rest =>
      if decide (32 ≤ length rest)%nat
      then Some {| req_key_id := k; req_kem_id := k1 * 256 + k0;
                   req_kdf_id := d1 * 256 + d0; req_aead_id := a1 * 256 + a0;
                   enc := take 32 rest; ct := drop 32 rest |}
      else None
  | _ => None
  end.

Definition string_of_bytes (b : bytes) : string :=
  string_of_list_ascii (map (fun z => ascii_of_N (Z.to_N z)) b).

Definition toyUnmarshalBinaryRequest (b : bytes) : option Request :=
  match b with
  | [] => None
  | _ => Some {| Method := MethodGet; Path := "/"; ReqHeader := ∅;
                 Host := string_of_bytes b; Body := Some [] |}
  end.

Definition toyEncodeBinaryResponse (res : Response) : option bytes :=
  Some (be16 (StatusCode res) ++ RespBody res)%list.

Definition toyDumpRequest (r : Request) (withBody : bool) : option bytes :=
  Some (bytes_of_string (Method r ++ " " ++ Path r ++ " HTTP/1.1")).

Definition toyLibrary : Library :=
  {| DeriveKeyPair := toyPublicKey;
     PublicConfig_Marshal := toyMarshalConfig;
     OpenRequest := toyOpen;
     UnmarshalEncapsulatedRequest := toyUnmarshalEncapsulatedRequest;
     UnmarshalBinaryRequest := toyUnmarshalBinaryRequest;
     EncodeBinaryResponse := toyEncodeBinaryResponse;
     DumpRequest := toyDumpRequest |}.

(** What a client sends for plaintext [m] under a public configuration. *)
Definition toyEncapsulateRequest (pc : PublicConfig) (m : bytes) : bytes :=
  ([pub_key_id pc] ++ be16 (pub_kem_id pc) ++ be16 (pub_kdf_id pc) ++
   be16 (pub_aead_id pc) ++ pub_key pc ++ toySeal m)%list.

(** *** The fixtures of the tests *)

Definition LEGACY_KEY_ID : Z := 0x00.
Definition CURRENT_KEY_ID : Z := uint8 (LEGACY_KEY_ID + 1).
Definition FORBIDDEN_TARGET : string := "forbidden.example".
Definition ALLOWED_TARGET : string := "allowed.example".
Definition GATEWAY_DEBUG : bool := true.

Definition defaultGatewayEndpoint : string := "/gateway".
Definition defaultConfigEndpoint : string := "/ohttp-keys".
Definition defaultLegacyConfigEndpoint : string := "/ohttp-configs".
Definition defaultEchoEndpoint : string := "/gateway-echo".
Definition defaultMetadataEndpoint : string := "/gateway-metadata".

(** The configurations of [createGateway]; the tests draw the keys at
    random, here they come from two fixed seeds. *)
Definition testLegacyConfig : PrivateConfig :=
  {| key_id := LEGACY_KEY_ID; kem_id := KEM_X25519_HKDF_SHA256; kdf_id := KDF_HKDF_SHA256;
     aead_id := AEAD_AES128GCM; seed := replicate 32 7 |}.

Definition testConfig : PrivateConfig :=
  {| key_id := CURRENT_KEY_ID; kem_id := KEM_X25519_KYBER768_DRAFT00; kdf_id := KDF_HKDF_SHA256;
     aead_id := AEAD_AES128GCM; seed := replicate 32 9 |}.

Definition createGateway : Gateway :=
  @NewDefaultGateway toyLibrary [testConfig; testLegacyConfig].

(** The handler of [main] for the gateway endpoint, with the allowlist of
    the scenario: one allowed origin, and a client that answers 200. *)
Definition testHttpHandler : FilteredHttpRequestHandler :=
  {| client := fun _ => inr {| StatusCode := StatusOK; RespBody := [] |};
     allowedOrigins := Some {[ ALLOWED_TARGET := true ]};
     logForbiddenErrors := false |}.

Definition testTargetHandler : DefaultEncapsulationHandler :=
  {| gateway := createGateway;
     appHandler := @BinaryHTTPAppHandler_Handle toyLibrary
                     {| httpHandler := FilteredHttpRequestHandler_Handle testHttpHandler |} |}.

(** The resource served in the examples: the gateway and the metadata
    endpoints as [main] installs them. *)
Definition testTarget : gatewayResource :=
  {| verbose := false;
     legacyKeyID := LEGACY_KEY_ID;
     resGateway := createGateway;
     encapsulationHandlers :=
       <[defaultGatewayEndpoint := DefaultEncapsulationHandler_Handle [] testTargetHandler]>
       (<[defaultMetadataEndpoint := @MetadataEncapsulationHandler_Handle toyLibrary createGateway]> ∅);
     debugResponse := GATEWAY_DEBUG |}.

(** An outer POST carrying [payload] with the OHTTP request content type. *)
Definition postRequest (path : string) (payload : bytes) : Request :=
  {| Method := MethodPost; Path := path;
     ReqHeader := Header_Set ∅ "Content-Type" ohttpRequestContentType;
     Host := "gateway.example"; Body := Some payload |}.

Definition getRequest (path : string) : Request :=
  {| Method := MethodGet; Path := path; ReqHeader := ∅;
     Host := "gateway.example"; Body := Some [] |}.

(** ** Vocabulary of the statements *)

(** The world once [l] has been added to the bag. *)
Definition fireIn (l : string) (σ : World) : World :=
  set_metrics {| eventName := eventName (metrics σ);
                 resultLabels := <[l := true]> (resultLabels (metrics σ)) |} σ.

(** The body text [httpError] selects. *)
Definition errorText (s : gatewayResource) (st : Z) (debugMessage : string) : string :=
  if debugResponse s then debugMessage else StatusText st.

(** The response carries [Cache-Control: max-age=N, private] with [N] in
    the window of 12 to 36 hours. *)
Definition cacheControlInWindow (res : Result unit) : Prop :=
  exists N : Z,
    12 * 3600 <= N < 36 * 3600 /\
    sent res !! "Cache-Control" = Some ["max-age=" ++ pretty N ++ ", private"].

(** The handlers that [main] installs behind the gateway endpoints. *)
Inductive installedHandler `{Library} (gw : Gateway) : EncapsulationHandler -> Prop :=
| installed_default (binaryResponse : bytes) (app : AppContentHandler) :
    installedHandler gw
      (DefaultEncapsulationHandler_Handle binaryResponse {| gateway := gw; appHandler := app |})
| installed_metadata :
    installedHandler gw (MetadataEncapsulationHandler_Handle gw).

(** Requests of the scenarios. *)
Definition clientRequest (path : string) (c : PrivateConfig) (m : bytes) : Request :=
  postRequest path (toyEncapsulateRequest (@PrivateConfig_Config toyLibrary c) m).

(** The configuration of TestGatewayHandlerWithInvalidKey: the current key
    ID under the classical KEM, with a key of its own. *)
Definition invalidKeyConfig : PrivateConfig :=
  {| key_id := CURRENT_KEY_ID; kem_id := KEM_X25519_HKDF_SHA256; kdf_id := KDF_HKDF_SHA256;
     aead_id := AEAD_AES128GCM; seed := replicate 32 3 |}.

(** A resource whose legacy key ID names no stored configuration. *)
Definition orphanLegacyTarget : gatewayResource :=
  {| verbose := false; legacyKeyID := 2; resGateway := createGateway;
     encapsulationHandlers := ∅; debugResponse := false |}.

(** The configuration of TestGatewayHandlerWithUnknownKey: a key ID the
    gateway does not store. *)
Definition unknownKeyConfig : PrivateConfig :=
  {| key_id := Z.lxor CURRENT_KEY_ID 0xFF; kem_id := KEM_X25519_HKDF_SHA256;
     kdf_id := KDF_HKDF_SHA256; aead_id := AEAD_AES128GCM; seed := replicate 32 5 |}.

(** The header value both key-discovery handlers format. *)
Definition cacheControl (draw : Z) : string :=
  "max-age=" ++ pretty (twelveHours + draw mod twentyFourHours) ++ ", private".

(** The resource of [main] for CONFIGURATION_ID 1 and the zero seed, as
    far as the key-discovery endpoints read it. *)
Definition mainTarget (L : Library) : gatewayResource :=
  {| verbose := false;
     legacyKeyID := legacyConfigID (uint8 1);
     resGateway :=
       match mainConfigs 1 (replicate 32 0) with
       | Some (config, legacyConfig) => NewDefaultGateway [config; legacyConfig]
       | None => NewDefaultGateway []
       end;
     encapsulationHandlers := ∅;
     debugResponse := false |}.

(** A handler without allowlist whose client fails. *)
Definition openFailingHandler : FilteredHttpRequestHandler :=
  {| client := fun _ => inl "connection refused";
     allowedOrigins := None;
     logForbiddenErrors := false |}.

Definition innerRequest (host : string) : Request :=
  {| Method := MethodGet; Path := "/"; ReqHeader := ∅; Host := host; Body := Some [] |}.

(** A POST with the reserved chunked content type. *)
Definition chunkedPost : Request :=
  {| Method := MethodPost; Path := defaultGatewayEndpoint;
     ReqHeader := Header_Set ∅ "Content-Type" ohttpChunkedRequestContentType;
     Host := "gateway.example"; Body := Some [] |}.

(** ** Vocabulary of the further properties *)

(** ** More of main: the allowlist of target origins *)

(** [strings.strings_Split(s, sep)] for a one-character separator: the pieces
    between the separators, one more than there are separators; the empty
    string gives one empty piece. *)
Fixpoint strings_Split (sep : ascii) (s : string) : list string :=
  match s with
  | EmptyString => [""]
  | String a rest =>
      if decide (a = sep) then "" :: strings_Split sep rest
      else match strings_Split sep rest with
           | piece :: pieces => String a piece :: pieces
           | [] => [String a ""]
           end
  end.

(** [strings.strings_Join(pieces, sep)] for a one-character separator. *)
Fixpoint strings_Join (sep : ascii) (pieces : list string) : string :=
  match pieces with
  | [] => ""
  | [piece] => piece
  | piece :: rest => piece ++ String sep (strings_Join sep rest)
  end.

(** The allowlist [main] builds from ALLOWED_TARGET_ORIGINS: a nil map
    when the variable is empty, else one entry per comma-separated
    piece. *)
Definition mainAllowedOrigins (originAllowList : string) : option (gmap string bool) :=
  if decide (originAllowList = "") then None
  else Some (foldl (fun allowed origin => <[origin := true]> allowed) ∅
               (strings_Split ","%char originAllowList)).

(** ** More vocabulary *)

(** Firing a list of labels, one after the other. *)
Fixpoint fireAll (ls : list string) : M unit :=
  match ls with
  | [] => mret tt
  | l :: rest => Fire l ;; fireAll rest
  end.

(** The statuses a relay may see. *)
Definition outerStatus (o : option Z) : Prop :=
  o = Some StatusOK \/ o = Some StatusBadRequest \/ o = Some StatusUnauthorized.

(** A handler that leaves the outer response alone, on every run. *)
Definition leavesResponse (eh : EncapsulationHandler) : Prop :=
  forall r req σ, w (world_of (eh r req σ)) = w σ.

(** The headers of an error response of [http.Error] on a new recorder. *)
Definition errorHeaders : Header :=
  Header_Set (Header_Set (Header_Del ∅ "Content-Length")
                "Content-Type" "text/plain; charset=utf-8")
    "X-Content-Type-Options" "nosniff".

(** The headers of a successful OHTTP response. *)
Definition ohttpResponseHeaders : Header :=
  Header_Set (Header_Set ∅ "Content-Type" ohttpResponseContentType)
    "Connection" "Keep-Alive".

(** A gateway resource of the tests with debug bodies switched off. *)
Definition quietTarget : gatewayResource :=
  {| verbose := false; legacyKeyID := LEGACY_KEY_ID; resGateway := createGateway;
     encapsulationHandlers := encapsulationHandlers testTarget;
     debugResponse := false |}.

(** A computation that leaves the outer response alone, on every run. *)
Definition keepsResponse {A : Type} (m : M A) : Prop :=
  forall σ, w (world_of (m σ)) = w σ.

(** *** More requests and handlers for the examples *)

(** A POST to a path no handler is installed for. *)
Definition strayPost : Request := postRequest "/nowhere" [].

(** A POST whose body is too short for an encapsulated request. *)
Definition shortPost : Request := postRequest defaultGatewayEndpoint [1; 2; 3].

(** An allowlist that holds the allowed target with the value false. *)
Definition falseFlagHandler : FilteredHttpRequestHandler :=
  {| client := fun _ => inr {| StatusCode := StatusOK; RespBody := [] |};
     allowedOrigins := Some {[ ALLOWED_TARGET := false ]};
     logForbiddenErrors := false |}.

(** The handler of [main] when ALLOWED_TARGET_ORIGINS holds two origins
    with a blank after the comma. *)
Definition blankListHandler : FilteredHttpRequestHandler :=
  {| client := fun _ => inr {| StatusCode := StatusOK; RespBody := [] |};
     allowedOrigins := mainAllowedOrigins "allowed.example, other.example";
     logForbiddenErrors := false |}.

(** What the parser yields for a client request under the current
    configuration of the tests. *)
Definition currentRequest (m : bytes) : EncapsulatedRequest :=
  {| req_key_id := CURRENT_KEY_ID; req_kem_id := KEM_X25519_KYBER768_DRAFT00;
     req_kdf_id := KDF_HKDF_SHA256; req_aead_id := AEAD_AES128GCM;
     enc := toyPublicKey KEM_X25519_KYBER768_DRAFT00 (seed testConfig);
     ct := toySeal m |}.

(** The world at the call of the OHTTP handler: a new recorder and the new
    bag of a gateway request. *)
Definition gatewayWorld (draw : Z) : World :=
  set_metrics {| eventName := metricsEventGatewayRequest; resultLabels := ∅ |} (newWorld draw).

(** * Properties *)

(** ** Labels and the bag *)

Lemma length_append (s1 s2 : string) :
  String.length (s1 ++ s2) = (String.length s1 + String.length s2)%nat.
Proof. induction s1 as [|a s1 IH]; simpl; [reflexivity | now rewrite IH]. Qed.

(** A response-status label is longer than the short outcome labels. *)
Lemma statusLabel_ne (prefix suffix l : string) :
  (String.length l < 17 + String.length suffix)%nat ->
  prefix ++ "_response_status_" ++ suffix ≠ l.
Proof.
  intros Hl Heq. apply (f_equal String.length) in Heq.
  rewrite !length_append in Heq. simpl in Heq. lia.
Qed.

Lemma Fire_fresh (l : string) (σ : World) :
  resultLabels (metrics σ) !! l = None -> Fire l σ = Ok tt (fireIn l σ).
Proof. intros H. unfold Fire. now rewrite H. Qed.

(** Whatever [Fire] does, labels of the bag stay and the response is not
    touched. *)
Lemma Fire_keeps (l : string) (σ : World) :
  w (world_of (Fire l σ)) = w σ /\
  outbound (world_of (Fire l σ)) = outbound σ /\
  forall l', resultLabels (metrics σ) !! l' = Some true ->
             resultLabels (metrics (world_of (Fire l σ))) !! l' = Some true.
Proof.
  unfold Fire. destruct (resultLabels (metrics σ) !! l) eqn:E; simpl.
  - auto.
  - repeat split; [reflexivity .. |]. intros l' H.
    destruct (decide (l = l')) as [->|Hne]; [congruence|].
    now rewrite lookup_insert_ne.
Qed.

Lemma httpError_eq (s : gatewayResource) (st : Z) (msg p : string) (σ : World) :
  httpError s st msg p σ =
  Fire (p ++ "_response_status_" ++ pretty st)
       (set_w (http_Error (errorText s st msg) st (w σ)) σ).
Proof. unfold httpError, errorText. destruct (debugResponse s); reflexivity. Qed.

Lemma http_Error_Code (txt : string) (st : Z) (rw : ResponseWriter) :
  Code (http_Error txt st rw) = match Code rw with Some c => Some c | None => Some st end.
Proof. destruct rw as [hm [c|] sn wr]; reflexivity. Qed.

(** [httpError] on a response whose status is out already: the status
    stays, and so do the labels. *)
Lemma httpError_keeps (s : gatewayResource) (st c : Z) (msg p : string) (σ : World) :
  Code (w σ) = Some c ->
  status (httpError s st msg p σ) = Some c /\
  forall l, resultLabels (metrics σ) !! l = Some true -> fired (httpError s st msg p σ) l.
Proof.
  intros Hc. rewrite httpError_eq. unfold status, fired, labels.
  destruct (Fire_keeps (p ++ "_response_status_" ++ pretty st)
              (set_w (http_Error (errorText s st msg) st (w σ)) σ)) as (Hw & _ & Hl).
  rewrite Hw. split.
  - unfold set_w. cbn [w]. rewrite http_Error_Code, Hc. reflexivity.
  - intros l H. apply Hl. exact H.
Qed.

(** The two statements after the switch of [gatewayHandler] keep a status
    that is out already, and keep the labels. *)
Lemma after_switch_keeps (s : gatewayResource) (c : Z) (msg p : string) (σ : World) :
  Code (w σ) = Some c ->
  let res := (Fire metricsResultInvalidContentType ;; httpError s StatusBadRequest msg p) σ in
  status res = Some c /\
  forall l, resultLabels (metrics σ) !! l = Some true -> fired res l.
Proof.
  intros Hc res. subst res. unfold mbind, M_bind.
  destruct (Fire_keeps metricsResultInvalidContentType σ) as (Hw & _ & Hl).
  destruct (Fire metricsResultInvalidContentType σ) as [[] σ1|msg' σ1] eqn:E; simpl in *.
  - destruct (httpError_keeps s StatusBadRequest c msg p σ1) as [H1 H2].
    { now rewrite Hw. }
    split; [exact H1|]. intros l H. apply H2, Hl, H.
  - unfold status, fired, labels. simpl. rewrite Hw. split; [exact Hc|]. intros l H. apply Hl, H.
Qed.

Section Frontend.
Context {L : Library}.

(** A POST with the OHTTP request content type runs the OHTTP handler and
    then the two statements after the switch. *)
Lemma gatewayHandler_post (s : gatewayResource) (r : Request) (σ : World) :
  Method r = MethodPost ->
  Header_Get (ReqHeader r) "Content-Type" = ohttpRequestContentType ->
  gatewayHandler s r σ =
  (ohttpGatewayHandler s r ;;
   Fire metricsResultInvalidContentType ;;
   httpError s StatusBadRequest
     ("Invalid content type: " ++ Header_Get (ReqHeader r) "Content-Type") (Method r))
    (set_metrics {| eventName := metricsEventGatewayRequest; resultLabels := ∅ |} σ).
Proof.
  intros Hm Hct. unfold gatewayHandler.
  unfold mbind at 1. unfold M_bind at 1. unfold Create, modify.
  destruct (decide (Method r ≠ MethodPost)) as [|_]; [contradiction|].
  destruct (decide (_ = ohttpRequestContentType)) as [_|]; [|contradiction].
  reflexivity.
Qed.

(** What reaches the outer response when the OHTTP handler returns with a
    status written. *)
Lemma gatewayHandler_post_keeps (s : gatewayResource) (r : Request) (σ σ1 : World) (c : Z) :
  Method r = MethodPost ->
  Header_Get (ReqHeader r) "Content-Type" = ohttpRequestContentType ->
  ohttpGatewayHandler s r
    (set_metrics {| eventName := metricsEventGatewayRequest; resultLabels := ∅ |} σ) = Ok tt σ1 ->
  Code (w σ1) = Some c ->
  status (gatewayHandler s r σ) = Some c /\
  forall l, resultLabels (metrics σ1) !! l = Some true -> fired (gatewayHandler s r σ) l.
Proof.
  intros Hm Hct Hrun Hc.
  assert (Hrest : gatewayHandler s r σ =
            (Fire metricsResultInvalidContentType ;;
             httpError s StatusBadRequest
               ("Invalid content type: " ++ Header_Get (ReqHeader r) "Content-Type")
               (Method r)) σ1).
  { rewrite gatewayHandler_post by assumption.
    unfold mbind at 1. unfold M_bind at 1. now rewrite Hrun. }
  rewrite Hrest. apply (after_switch_keeps s c _ _ σ1 Hc).
Qed.

(** The OHTTP handler up to the call of the encapsulation handler. *)
Lemma ohttpGatewayHandler_dispatch (s : gatewayResource) (r : Request) (σ : World)
    (encapHandler : EncapsulationHandler) (bs : bytes) (req : EncapsulatedRequest) :
  encapsulationHandlers s !! Path r = Some encapHandler ->
  Body r = Some bs ->
  UnmarshalEncapsulatedRequest bs = Some req ->
  ohttpGatewayHandler s r σ =
  match encapHandler r req σ with
  | Ok (inl err) σ' =>
      httpError s (ErrEncapsulationToGatewayStatusCode err)
        (StatusText (ErrEncapsulationToGatewayStatusCode err)) (Method r) σ'
  | Ok (inr encapsulatedResp) σ' =>
      (onWriter (SetHeader "Content-Type" ohttpResponseContentType) ;;
       onWriter (SetHeader "Connection" "Keep-Alive") ;;
       onWriter (ResponseWriter_Write (EncapsulatedResponse_Marshal encapsulatedResp)) ;;
       ResponseStatus (Method r) StatusOK) σ'
  | Panic msg σ' => Panic msg σ'
  end.
Proof.
  intros Hh Hb Hu. unfold ohttpGatewayHandler. rewrite Hh, Hb, Hu.
  unfold mbind at 1. unfold M_bind at 1.
  destruct (encapHandler r req σ) as [[err|resp] σ'|msg σ']; reflexivity.
Qed.

End Frontend.

Section Encapsulation.
Context {L : Library}.

(** Both installed handlers reject a request that the gateway does not
    match, and give up when decapsulation fails, in the same way. *)
Lemma installed_mismatch (gw : Gateway) (eh : EncapsulationHandler)
    (r : Request) (req : EncapsulatedRequest) (σ : World) :
  installedHandler gw eh ->
  MatchesConfig gw req = false ->
  eh r req σ =
  (Fire metricsResultConfigurationMismatch ;; mret (EncapsulationFail ErrConfigMismatch)) σ.
Proof.
  intros [binResp app|] Hm;
    unfold DefaultEncapsulationHandler_Handle, MetadataEncapsulationHandler_Handle;
    cbn [gateway]; rewrite Hm; reflexivity.
Qed.

Lemma installed_decapsulation_failure (gw : Gateway) (eh : EncapsulationHandler)
    (r : Request) (req : EncapsulatedRequest) (σ : World) :
  installedHandler gw eh ->
  MatchesConfig gw req = true ->
  DecapsulateRequest gw req = None ->
  eh r req σ =
  (Fire metricsResultDecapsulationFailed ;; mret (EncapsulationFail ErrEncapsulation)) σ.
Proof.
  intros [binResp app|] Hm Hd;
    unfold DefaultEncapsulationHandler_Handle, MetadataEncapsulationHandler_Handle;
    cbn [gateway]; rewrite Hm, Hd; reflexivity.
Qed.

(** The outcome of the OHTTP handler when the encapsulation handler fires
    one label on the new bag and fails with [err]. *)
Lemma ohttpGatewayHandler_failure (s : gatewayResource) (r : Request) (σ : World)
    (eh : EncapsulationHandler) (bs : bytes) (req : EncapsulatedRequest)
    (label : string) (err : error) :
  encapsulationHandlers s !! Path r = Some eh ->
  Body r = Some bs ->
  UnmarshalEncapsulatedRequest bs = Some req ->
  Method r = MethodPost ->
  Code (w σ) = None ->
  resultLabels (metrics σ) = ∅ ->
  (String.length label < 24)%nat ->
  eh r req σ = (Fire label ;; mret (EncapsulationFail err)) σ ->
  exists σ1,
    ohttpGatewayHandler s r σ = Ok tt σ1 /\
    Code (w σ1) = Some (ErrEncapsulationToGatewayStatusCode err) /\
    resultLabels (metrics σ1) !! label = Some true.
Proof.
  intros Hh Hb Hu Hm Hc Hl Hlen Heh.
  rewrite (ohttpGatewayHandler_dispatch s r σ eh bs req Hh Hb Hu), Heh.
  unfold mbind, M_bind. rewrite Fire_fresh by (rewrite Hl; apply lookup_empty).
  cbn [mret M_ret EncapsulationFail]. rewrite httpError_eq, Hm.
  assert (Hne : MethodPost ++ "_response_status_"
                  ++ pretty (ErrEncapsulationToGatewayStatusCode err) ≠ label).
  { intros E. apply (f_equal String.length) in E. rewrite !length_append in E.
    revert E Hlen. generalize (String.length label) as n. intros n E Hlen.
    destruct err; vm_compute in E; subst n; vm_compute in Hlen; lia. }
  rewrite Fire_fresh.
  2:{ cbn. rewrite lookup_insert_ne by (intros E; apply Hne; now rewrite E).
      rewrite Hl. apply lookup_empty. }
  eexists. split; [reflexivity|]. split.
  - cbn [fireIn set_metrics set_w w]. rewrite http_Error_Code. cbn [fireIn set_metrics w].
    now rewrite Hc.
  - cbn. rewrite lookup_insert_ne by exact Hne. apply lookup_insert_eq.
Qed.

End Encapsulation.

Lemma lookupConfig_None (configs : list PrivateConfig) (id : Z) :
  (forall c, c ∈ configs -> key_id c ≠ id) -> lookupConfig configs id = None.
Proof.
  intros H. unfold lookupConfig. induction configs as [|c cs IH]; [reflexivity|].
  simpl. destruct (bool_decide (key_id c = id)) eqn:E.
  - apply bool_decide_eq_true in E. exfalso. apply (H c); [left | exact E].
  - apply IH. intros c' Hc'. apply H. now right.
Qed.



(** ** The key-discovery endpoints *)

Lemma bytes_of_string_app (s1 s2 : string) :
  bytes_of_string (s1 ++ s2) = (bytes_of_string s1 ++ bytes_of_string s2)%list.
Proof.
  unfold bytes_of_string. induction s1 as [|a s1 IH]; [reflexivity|].
  simpl. f_equal. exact IH.
Qed.

Lemma rand_Intn_day (σ : World) :
  rand_Intn twentyFourHours σ = Ok (rng σ mod twentyFourHours) σ.
Proof.
  unfold rand_Intn. destruct (decide (twentyFourHours <= 0)) as [H|_]; [|reflexivity].
  unfold twentyFourHours in H. lia.
Qed.

Lemma maxAge_window (draw : Z) :
  12 * 3600 <= twelveHours + draw mod twentyFourHours < 36 * 3600.
Proof.
  unfold twelveHours, twentyFourHours.
  pose proof (Z.mod_pos_bound draw (24 * 3600)). lia.
Qed.


(** The run of [configHandler]. *)
Lemma configHandler_run (s : gatewayResource) (r : Request) (draw : Z) :
  let res := ServeHTTP (configHandler s) r draw in
  returned res = true /\
  status res = Some StatusOK /\
  sent res = Header_Set (Header_Set ∅ "Cache-Control" (cacheControl draw))
               "Content-Type" "application/ohttp-keys" /\
  body res = MarshalConfigs (resGateway s).
Proof.
  unfold ServeHTTP, configHandler, Create, modify, onWriter.
  unfold mbind, M_bind. rewrite rand_Intn_day. unfold modify, ResponseStatus.
  rewrite Fire_fresh by apply lookup_empty.
  repeat split.
Qed.

Section Legacy.
Context {L : Library}.

(** The run of [legacyConfigHandler] when the configuration is there. *)
Lemma legacyConfigHandler_run (s : gatewayResource) (r : Request) (draw : Z)
    (config : PublicConfig) :
  Config (resGateway s) (legacyKeyID s) = Some config ->
  let res := ServeHTTP (legacyConfigHandler s) r draw in
  returned res = true /\
  status res = Some StatusOK /\
  sent res = Header_Set ∅ "Cache-Control" (cacheControl draw) /\
  body res = PublicConfig_Marshal config.
Proof.
  intros Hcfg. unfold ServeHTTP, legacyConfigHandler, Create, modify, onWriter.
  unfold mbind, M_bind. rewrite Hcfg, rand_Intn_day. unfold modify, ResponseStatus.
  rewrite Fire_fresh by apply lookup_empty.
  repeat split.
Qed.

(** The run of [legacyConfigHandler] when it is not. *)
Lemma legacyConfigHandler_unavailable (s : gatewayResource) (r : Request) (draw : Z) :
  Config (resGateway s) (legacyKeyID s) = None ->
  let res := ServeHTTP (legacyConfigHandler s) r draw in
  returned res = true /\
  status res = Some StatusInternalServerError /\
  fired res metricsResultConfigsUnavalable /\
  sent res = Header_Set (Header_Set ∅ "Content-Type" "text/plain; charset=utf-8")
               "X-Content-Type-Options" "nosniff" /\
  body res = (bytes_of_string (errorText s StatusInternalServerError "Config unavailable") ++ [10])%list.
Proof.
  intros Hcfg. unfold ServeHTTP, legacyConfigHandler, Create, modify.
  unfold mbind, M_bind. rewrite Hcfg.
  rewrite Fire_fresh by apply lookup_empty. rewrite httpError_eq.
  assert (Hne : Method r ++ "_response_status_" ++ pretty StatusInternalServerError
                ≠ metricsResultConfigsUnavalable).
  { apply statusLabel_ne. vm_compute. lia. }
  rewrite Fire_fresh by (cbn; rewrite lookup_insert_ne by (intros E; apply Hne; now rewrite E);
                         apply lookup_empty).
  unfold returned, status, fired, labels, sent, body. cbn [world_of].
  split; [reflexivity|]. split; [reflexivity|]. split.
  { cbn. rewrite lookup_insert_ne by exact Hne. apply lookup_insert_eq. }
  split.
  { cbn. unfold Header_Set, Header_Del. now rewrite delete_empty. }
  cbn. apply bytes_of_string_app.
Qed.

End Legacy.

(** C10: the only failing path of the key-discovery endpoints is the
    legacy endpoint without its configuration: status 500, the label
    configs_unavailable, the error text as body and no Cache-Control. *)
Theorem C10_legacy_config_unavailable (L : Library) (s : gatewayResource) (r : Request) (draw : Z) :
  let legacy := ServeHTTP (legacyConfigHandler s) r draw in
  let current := ServeHTTP (configHandler s) r draw in
  (Config (resGateway s) (legacyKeyID s) = None ->
     returned legacy = true /\
     status legacy = Some StatusInternalServerError /\
     fired legacy metricsResultConfigsUnavalable /\
     sent legacy !! "Cache-Control" = None /\
     body legacy =
       (bytes_of_string (errorText s StatusInternalServerError "Config unavailable") ++ [10])%list) /\
  (is_Some (Config (resGateway s) (legacyKeyID s)) ->
     returned legacy = true /\ status legacy = Some StatusOK) /\
  (returned current = true /\ status current = Some StatusOK).
Proof.
  intros legacy current. split; [|split].
  - intros Hnone.
    destruct (legacyConfigHandler_unavailable s r draw Hnone) as (H1 & H2 & H3 & H4 & H5).
    fold legacy in H1, H2, H3, H4, H5.
    repeat split; try assumption. rewrite H4. reflexivity.
  - intros [config Hsome].
    destruct (legacyConfigHandler_run s r draw config Hsome) as (H1 & H2 & _).
    split; assumption.
  - destruct (configHandler_run s r draw) as (H1 & H2 & _). split; assumption.
Qed.

(** C10 on a resource without its legacy configuration and on the test
    resource. *)
Lemma C10_witness :
  (let legacy := ServeHTTP (@legacyConfigHandler toyLibrary orphanLegacyTarget)
                   (getRequest defaultLegacyConfigEndpoint) 0 in
   status legacy = Some StatusInternalServerError /\
   fired legacy metricsResultConfigsUnavalable /\
   sent legacy !! "Cache-Control" = None) /\
  (let legacy := ServeHTTP (@legacyConfigHandler toyLibrary testTarget)
                   (getRequest defaultLegacyConfigEndpoint) 0 in
   status legacy = Some StatusOK).
Proof.
  split.
  - destruct (proj1 (C10_legacy_config_unavailable toyLibrary orphanLegacyTarget
                       (getRequest defaultLegacyConfigEndpoint) 0) eq_refl)
      as (_ & H2 & H3 & H4 & _).
    split; [exact H2 | split; [exact H3 | exact H4]].
  - apply (proj1 (proj2 (C10_legacy_config_unavailable toyLibrary testTarget
                           (getRequest defaultLegacyConfigEndpoint) 0))).
    eexists. reflexivity.
Defined.




(** ** Start-up: the legacy configuration *)

Lemma uint8_small (k : Z) : 0 <= k < 256 -> uint8 k = k.
Proof. intros H. unfold uint8. now apply Z.mod_small. Qed.

(** The legacy key ID in closed form. *)
Lemma legacyConfigID_cases (k : Z) :
  0 <= k < 256 ->
  legacyConfigID k = (if decide (128 <= k) then k - 128
                      else if decide (k = 127) then 0 else k + 128).
Proof.
  intros Hk. unfold legacyConfigID, uint8.
  destruct (decide (128 <= k)); [|destruct (decide (k = 127))];
    Z.div_mod_to_equations; lia.
Qed.

Lemma legacyConfigID_ne (k : Z) : 0 <= k < 256 -> legacyConfigID k ≠ k.
Proof.
  intros Hk. rewrite legacyConfigID_cases by exact Hk.
  destruct (decide (128 <= k)); [|destruct (decide (k = 127))]; lia.
Qed.

Lemma xorLastByte_snoc (init : bytes) (last : Z) :
  xorLastByte (init ++ [last])%list = Some (init ++ [Z.lxor last 0xFF])%list.
Proof.
  unfold xorLastByte. rewrite length_app. simpl.
  replace (length init + 1 - 1)%nat with (length init) by lia.
  rewrite list_lookup_middle by reflexivity.
  f_equal. rewrite insert_app_r_alt by lia.
  replace (length init - length init)%nat with 0%nat by lia. reflexivity.
Qed.

Lemma mainConfigs_snoc (CONFIGURATION_ID : Z) (init : bytes) (last : Z) :
  length (init ++ [last])%list = defaultSeedLength ->
  mainConfigs CONFIGURATION_ID (init ++ [last])%list =
  Some ({| key_id := uint8 CONFIGURATION_ID; kem_id := KEM_X25519_KYBER768_DRAFT00;
           kdf_id := KDF_HKDF_SHA256; aead_id := AEAD_AES128GCM;
           seed := (init ++ [last])%list |},
        {| key_id := legacyConfigID (uint8 CONFIGURATION_ID); kem_id := KEM_X25519_HKDF_SHA256;
           kdf_id := KDF_HKDF_SHA256; aead_id := AEAD_AES128GCM;
           seed := (init ++ [Z.lxor last 0xFF])%list |}).
Proof.
  intros Hlen. unfold mainConfigs, NewConfigFromSeed.
  rewrite decide_True by exact Hlen. cbn [mbind option_bind].
  rewrite xorLastByte_snoc. cbn [mbind option_bind].
  rewrite decide_True; [reflexivity|].
  rewrite length_app in *. exact Hlen.
Qed.

Lemma seed_snoc (sd : bytes) :
  length sd = defaultSeedLength -> exists init last, sd = (init ++ [last])%list.
Proof.
  intros Hlen. assert (Hne : sd <> []) by (intros ->; discriminate).
  destruct (exists_last Hne) as (init & last & ->). now exists init, last.
Qed.

(** C5, with the 8-bit subtraction: the legacy configuration has key ID
    ((k - 128) mod 256) mod 255, the seed with its last byte XORed with
    0xFF, and the KEM X25519-HKDF-SHA256; it is a function of k and the
    seed. *)
Theorem C5_legacy_config_derivation (k : Z) (sd : bytes) :
  0 <= k < 256 ->
  length sd = 32%nat ->
  exists config legacyConfig init last,
    mainConfigs k sd = Some (config, legacyConfig) /\
    key_id legacyConfig = ((k - 128) mod 256) mod 255 /\
    sd = (init ++ [last])%list /\
    seed legacyConfig = (init ++ [Z.lxor last 0xFF])%list /\
    kem_id legacyConfig = KEM_X25519_HKDF_SHA256 /\
    (forall config' legacyConfig',
       mainConfigs k sd = Some (config', legacyConfig') -> legacyConfig' = legacyConfig).
Proof.
  intros Hk Hlen. destruct (seed_snoc sd Hlen) as (init & last & ->).
  eexists _, _, init, last. split; [apply mainConfigs_snoc, Hlen|].
  cbn [key_id seed kem_id]. split; [|split; [|split; [|split]]]; try reflexivity.
  - rewrite (uint8_small k Hk). unfold legacyConfigID, uint8.
    apply Z.mod_small. Z.div_mod_to_equations; lia.
  - intros config' legacyConfig' H. rewrite mainConfigs_snoc in H by exact Hlen.
    now injection H as _ <-.
Qed.

(** C5 at key ID 1 and the zero seed. *)
Lemma C5_witness :
  exists config legacyConfig init last,
    mainConfigs 1 (replicate 32 0) = Some (config, legacyConfig) /\
    key_id legacyConfig = ((1 - 128) mod 256) mod 255 /\
    replicate 32 0 = (init ++ [last])%list /\
    seed legacyConfig = (init ++ [Z.lxor last 0xFF])%list /\
    kem_id legacyConfig = KEM_X25519_HKDF_SHA256.
Proof.
  destruct (C5_legacy_config_derivation 1 (replicate 32 0)) as
    (config & legacyConfig & init & last & H1 & H2 & H3 & H4 & H5 & _);
    [lia | reflexivity |].
  exists config, legacyConfig, init, last.
  split; [exact H1 | split; [exact H2 | split; [exact H3 | split; [exact H4 | exact H5]]]].
Defined.

(** C5 as stated fails at the default key ID 0: the code yields 128, and
    (0 - 128) mod 255 is 127. *)
Lemma C5_counterexample :
  (key_id ∘ snd) <$> mainConfigs 0 (replicate 32 0) = Some 128 /\
  (0 - 128) mod 255 = 127.
Proof. split; reflexivity. Qed.

(** ** The key-discovery bodies *)

(** C9: for the gateway that [main] builds, the current endpoint answers
    with the public form of the primary configuration followed by the
    legacy one under Content-Type application/ohttp-keys; the legacy
    endpoint answers with the legacy public configuration alone and sets
    no Content-Type. *)
Theorem C9_key_discovery_bodies (L : Library) (CONFIGURATION_ID : Z) (sd : bytes)
    (config legacyConfig : PrivateConfig) (s : gatewayResource) (r : Request) (draw : Z) :
  mainConfigs CONFIGURATION_ID sd = Some (config, legacyConfig) ->
  resGateway s = NewDefaultGateway [config; legacyConfig] ->
  legacyKeyID s = legacyConfigID (uint8 CONFIGURATION_ID) ->
  let current := ServeHTTP (configHandler s) r draw in
  let legacy := ServeHTTP (legacyConfigHandler s) r draw in
  body current = (PublicConfig_Marshal (PrivateConfig_Config config) ++
                  PublicConfig_Marshal (PrivateConfig_Config legacyConfig))%list /\
  sent current !! "Content-Type" = Some ["application/ohttp-keys"] /\
  body legacy = PublicConfig_Marshal (PrivateConfig_Config legacyConfig) /\
  sent legacy !! "Content-Type" = None.
Proof.
  intros Hmain Hgw Hid current legacy.
  assert (Hids : key_id config = uint8 CONFIGURATION_ID /\
                 key_id legacyConfig = legacyConfigID (uint8 CONFIGURATION_ID)).
  { unfold mainConfigs, NewConfigFromSeed in Hmain.
    destruct (decide (length sd = defaultSeedLength)); [|discriminate].
    cbn [mbind option_bind] in Hmain.
    destruct (xorLastByte sd) as [sd'|]; [|discriminate]. cbn [mbind option_bind] in Hmain.
    destruct (decide (length sd' = defaultSeedLength)); [|discriminate].
    cbn [mbind option_bind] in Hmain. injection Hmain as <- <-. split; reflexivity. }
  destruct Hids as [Hk Hlk].
  assert (Hcfg : Config (resGateway s) (legacyKeyID s) = Some (PrivateConfig_Config legacyConfig)).
  { rewrite Hgw, Hid. cbn. rewrite Hk, Hlk.
    rewrite bool_decide_eq_false_2.
    - now rewrite bool_decide_eq_true_2.
    - intros E. symmetry in E. revert E. apply legacyConfigID_ne.
      unfold uint8. apply Z.mod_pos_bound. lia. }
  destruct (configHandler_run s r draw) as (_ & _ & Hs & Hb).
  destruct (legacyConfigHandler_run s r draw _ Hcfg) as (_ & _ & Hls & Hlb).
  subst current legacy. split; [|split; [|split]].
  - rewrite Hb, Hgw. cbn. now rewrite app_nil_r.
  - rewrite Hs. apply lookup_insert_eq.
  - exact Hlb.
  - rewrite Hls. unfold Header_Set. rewrite lookup_insert_ne by discriminate.
    apply lookup_empty.
Qed.


(** C9 on the resource of [main] for CONFIGURATION_ID 1 and the zero seed. *)
Lemma C9_witness :
  exists config legacyConfig,
    mainConfigs 1 (replicate 32 0) = Some (config, legacyConfig) /\
    body (ServeHTTP (configHandler (mainTarget toyLibrary)) (getRequest defaultConfigEndpoint) 0) =
      (toyMarshalConfig (@PrivateConfig_Config toyLibrary config) ++
       toyMarshalConfig (@PrivateConfig_Config toyLibrary legacyConfig))%list /\
    body (ServeHTTP (@legacyConfigHandler toyLibrary (mainTarget toyLibrary))
            (getRequest defaultLegacyConfigEndpoint) 0) =
      toyMarshalConfig (@PrivateConfig_Config toyLibrary legacyConfig).
Proof.
  eexists _, _. split; [reflexivity|].
  pose proof (C9_key_discovery_bodies toyLibrary 1 (replicate 32 0) _ _ (mainTarget toyLibrary)
                (getRequest defaultConfigEndpoint) 0 eq_refl eq_refl eq_refl) as H.
  cbv zeta in H. destruct H as (H1 & _ & H3 & _). split; [exact H1 | exact H3].
Defined.

(** ** The application handlers *)

(** The fetch of [FilteredHttpRequestHandler.Handle]: the request is
    handed to the client whatever the bag then does. *)
Lemma fetch_outbound (h : FilteredHttpRequestHandler) (req : Request) (σ : World) :
  allowedOrigins h = None \/
  (exists origins, allowedOrigins h = Some origins /\ is_Some (origins !! Host req)) ->
  FilteredHttpRequestHandler_Handle h req σ =
  (modify (fun σ => set_outbound (outbound σ ++ [req]) σ) ;;
   match client h req with
   | inl msg => Fire metricsResultTargetRequestFailed ;; mret (inl (ErrTransport msg))
   | inr resp => Fire metricsResultSuccess ;; mret (inr resp)
   end) σ.
Proof.
  intros [Hnone|(origins & Hsome & [b Hin])]; unfold FilteredHttpRequestHandler_Handle.
  - now rewrite Hnone.
  - now rewrite Hsome, Hin.
Qed.






(** ** Method and content type *)

(** C4: a request that is not a POST gets 400 with invalid_method; a POST
    whose Content-Type is not message/ohttp-req, the chunked type
    included, gets 400 with invalid_content_type. *)
Theorem C4_method_and_content_type (L : Library) (s : gatewayResource) (r : Request) (draw : Z) :
  let res := ServeHTTP (gatewayHandler s) r draw in
  (Method r ≠ MethodPost ->
     returned res = true /\ status res = Some StatusBadRequest /\
     fired res metricsResultInvalidMethod) /\
  (Method r = MethodPost ->
   Header_Get (ReqHeader r) "Content-Type" ≠ ohttpRequestContentType ->
     returned res = true /\ status res = Some StatusBadRequest /\
     fired res metricsResultInvalidContentType).
Proof.
  intros res. subst res. unfold ServeHTTP, gatewayHandler. split.
  - intros Hm. unfold mbind, M_bind, Create, modify. simpl.
    destruct (decide (Method r ≠ MethodPost)) as [_|]; [|contradiction].
    rewrite Fire_fresh by apply lookup_empty. rewrite httpError_eq.
    assert (Hne : Method r ++ "_response_status_" ++ pretty StatusBadRequest
                  ≠ metricsResultInvalidMethod).
    { apply statusLabel_ne. vm_compute. lia. }
    rewrite Fire_fresh.
    2:{ cbn. rewrite lookup_insert_ne by (intros E; apply Hne; now rewrite E).
        apply lookup_empty. }
    unfold status, fired, labels, returned. cbn.
    split; [reflexivity|]. split; [reflexivity|].
    rewrite lookup_insert_ne by exact Hne. apply lookup_insert_eq.
  - intros Hm Hct. unfold mbind, M_bind, Create, modify. simpl.
    destruct (decide (Method r ≠ MethodPost)) as [|_]; [contradiction|].
    destruct (decide (_ = ohttpRequestContentType)) as [|_]; [contradiction|].
    assert (Hsw : forall σ,
              (if decide (Header_Get (ReqHeader r) "Content-Type" = ohttpChunkedRequestContentType)
               then ohttpChunkedGatewayHandler s r else mret tt) σ = Ok tt σ).
    { intros σ. destruct (decide _); reflexivity. }
    rewrite Hsw. rewrite Fire_fresh by apply lookup_empty.
    rewrite httpError_eq, Hm. rewrite Fire_fresh by reflexivity.
    unfold status, fired, labels, returned. cbn. repeat split.
Qed.


(** C4 on a GET and on a POST with the chunked content type. *)
Lemma C4_witness :
  (let res := ServeHTTP (@gatewayHandler toyLibrary testTarget)
                (getRequest defaultGatewayEndpoint) 0 in
   returned res = true /\ status res = Some StatusBadRequest /\
   fired res metricsResultInvalidMethod) /\
  (let res := ServeHTTP (@gatewayHandler toyLibrary testTarget) chunkedPost 0 in
   returned res = true /\ status res = Some StatusBadRequest /\
   fired res metricsResultInvalidContentType).
Proof.
  split.
  - apply (proj1 (C4_method_and_content_type toyLibrary testTarget
                    (getRequest defaultGatewayEndpoint) 0)).
    vm_compute. discriminate.
  - apply (proj2 (C4_method_and_content_type toyLibrary testTarget chunkedPost 0)).
    + reflexivity.
    + vm_compute. discriminate.
Defined.

(** ** Application errors and the outer status *)

Section ApplicationErrors.
Context {L : Library}.

(** An error of the application handler leaves [Handle] as it is, and the
    frontend answers it like an encapsulation error: through [httpError],
    with the status of [ErrEncapsulationToGatewayStatusCode]. *)
Lemma app_error_reaches_httpError (s : gatewayResource) (r : Request) (σ σ' : World)
    (binaryResponse : bytes) (h : DefaultEncapsulationHandler)
    (bs binaryRequest : bytes) (req : EncapsulatedRequest)
    (context : DecapsulateRequestContext) (e : error) :
  encapsulationHandlers s !! Path r =
    Some (DefaultEncapsulationHandler_Handle binaryResponse h) ->
  Body r = Some bs ->
  UnmarshalEncapsulatedRequest bs = Some req ->
  MatchesConfig (gateway h) req = true ->
  DecapsulateRequest (gateway h) req = Some (binaryRequest, context) ->
  appHandler h binaryRequest σ = Ok (Some e) σ' ->
  ohttpGatewayHandler s r σ =
  httpError s (ErrEncapsulationToGatewayStatusCode e)
    (StatusText (ErrEncapsulationToGatewayStatusCode e)) (Method r) σ'.
Proof.
  intros Hh Hb Hu Hm Hd Happ.
  rewrite (ohttpGatewayHandler_dispatch s r σ _ bs req Hh Hb Hu).
  unfold DefaultEncapsulationHandler_Handle. rewrite Hm, Hd. cbn [negb].
  unfold mbind at 1. unfold M_bind at 1. rewrite Happ. reflexivity.
Qed.

(** The three application-tier errors all map to the outer status 400. *)
Lemma app_error_status (e : error) :
  e = ErrPayloadMarshalling \/ e = ErrGatewayTargetForbidden \/ e = ErrGatewayInternalServer ->
  ErrEncapsulationToGatewayStatusCode e = StatusBadRequest.
Proof. intros [->|[->| ->]]; reflexivity. Qed.

(** When the OHTTP handler returns without panic on a POST with the OHTTP
    content type, [gatewayHandler] goes on to fire invalid_content_type and
    to report the status 400. *)
Lemma gatewayHandler_after_return (s : gatewayResource) (r : Request) (σ σ1 : World) :
  Method r = MethodPost ->
  Header_Get (ReqHeader r) "Content-Type" = ohttpRequestContentType ->
  ohttpGatewayHandler s r
    (set_metrics {| eventName := metricsEventGatewayRequest; resultLabels := ∅ |} σ) = Ok tt σ1 ->
  resultLabels (metrics σ1) !! metricsResultInvalidContentType = None ->
  gatewayHandler s r σ =
  Fire ("POST_response_status_400")
    (set_w (http_Error (errorText s StatusBadRequest
                          ("Invalid content type: " ++ ohttpRequestContentType))
              StatusBadRequest (w σ1))
       (fireIn metricsResultInvalidContentType σ1)).
Proof.
  intros Hm Hct Hrun Hfresh. rewrite gatewayHandler_post by assumption.
  unfold mbind, M_bind. rewrite Hrun, Fire_fresh by exact Hfresh.
  rewrite httpError_eq, Hm, Hct. reflexivity.
Qed.

End ApplicationErrors.

(** [httpError] on a response without status: the status is the one
    given, whether or not the bag accepts the status label. *)
Lemma httpError_status (s : gatewayResource) (st : Z) (msg p : string) (σ : World) :
  Code (w σ) = None -> status (httpError s st msg p σ) = Some st.
Proof.
  intros Hc. rewrite httpError_eq. unfold status.
  destruct (Fire_keeps (p ++ "_response_status_" ++ pretty st)
              (set_w (http_Error (errorText s st msg) st (w σ)) σ)) as (Hw & _ & _).
  rewrite Hw. unfold set_w. cbn [w]. now rewrite http_Error_Code, Hc.
Qed.

(** C1, on the code: when the application handler fails with one of the
    three application-tier errors, the outer status is 400; the inner
    statuses 400, 403 and 500 of [payloadErrorToPayloadStatusCode] are
    never sealed. *)
Theorem C1_app_error_outer_400 (L : Library) (s : gatewayResource) (r : Request) (draw : Z)
    (binaryResponse : bytes) (h : DefaultEncapsulationHandler)
    (bs binaryRequest : bytes) (req : EncapsulatedRequest)
    (context : DecapsulateRequestContext) (e : error) (σ' : World) :
  Method r = MethodPost ->
  Header_Get (ReqHeader r) "Content-Type" = ohttpRequestContentType ->
  encapsulationHandlers s !! Path r =
    Some (DefaultEncapsulationHandler_Handle binaryResponse h) ->
  Body r = Some bs ->
  UnmarshalEncapsulatedRequest bs = Some req ->
  MatchesConfig (gateway h) req = true ->
  DecapsulateRequest (gateway h) req = Some (binaryRequest, context) ->
  appHandler h binaryRequest
    (set_metrics {| eventName := metricsEventGatewayRequest; resultLabels := ∅ |}
       (newWorld draw)) = Ok (Some e) σ' ->
  Code (w σ') = None ->
  e = ErrPayloadMarshalling \/ e = ErrGatewayTargetForbidden \/ e = ErrGatewayInternalServer ->
  status (ServeHTTP (gatewayHandler s) r draw) = Some StatusBadRequest /\
  status (ServeHTTP (gatewayHandler s) r draw) ≠ Some StatusOK.
Proof.
  intros Hm Hct Hh Hb Hu Hmatch Hdec Happ Hc He.
  assert (Hst : status (ServeHTTP (gatewayHandler s) r draw) = Some StatusBadRequest).
  { unfold ServeHTTP.
    set (σ0 := set_metrics {| eventName := metricsEventGatewayRequest; resultLabels := ∅ |}
                 (newWorld draw)) in *.
    pose proof (app_error_reaches_httpError s r σ0 σ' binaryResponse h bs binaryRequest
                  req context e Hh Hb Hu Hmatch Hdec Happ) as Hrun.
    rewrite (app_error_status e He) in Hrun.
    pose proof (httpError_status s StatusBadRequest (StatusText StatusBadRequest)
                  (Method r) σ' Hc) as Hs.
    rewrite <- Hrun in Hs.
    destruct (ohttpGatewayHandler s r σ0) as [[] σ1|msg σ1] eqn:E.
    - apply (gatewayHandler_post_keeps s r (newWorld draw) σ1 _ Hm Hct E Hs).
    - rewrite gatewayHandler_post by assumption.
      unfold mbind at 1. unfold M_bind at 1. fold σ0. rewrite E. exact Hs. }
  split; [exact Hst | rewrite Hst; discriminate].
Qed.

(** C1 on the forbidden target of the tests. *)
Lemma C1_witness :
  status (ServeHTTP (@gatewayHandler toyLibrary testTarget)
            (clientRequest defaultGatewayEndpoint testConfig (bytes_of_string FORBIDDEN_TARGET)) 0)
  = Some StatusBadRequest.
Proof.
  refine (proj1 (C1_app_error_outer_400 toyLibrary testTarget
            (clientRequest defaultGatewayEndpoint testConfig (bytes_of_string FORBIDDEN_TARGET)) 0
            [] testTargetHandler
            (toyEncapsulateRequest (@PrivateConfig_Config toyLibrary testConfig)
               (bytes_of_string FORBIDDEN_TARGET))
            (bytes_of_string FORBIDDEN_TARGET) _ (toyContext testConfig)
            ErrGatewayTargetForbidden _
            eq_refl eq_refl eq_refl eq_refl eq_refl eq_refl eq_refl eq_refl eq_refl
            (or_intror (or_introl eq_refl)))).
Defined.

(** The run on the forbidden target, in full: the OHTTP handler returns
    with status 400, the label request_forbidden and the text of the
    status as body; the statements after the switch then fire the status
    label of 400 a second time, which the bag refuses. *)
Example forbidden_target_run :
  let r := clientRequest defaultGatewayEndpoint testConfig (bytes_of_string FORBIDDEN_TARGET) in
  let inner := ServeHTTP (@ohttpGatewayHandler toyLibrary testTarget) r 0 in
  let outer := ServeHTTP (@gatewayHandler toyLibrary testTarget) r 0 in
  returned inner = true /\
  status inner = Some StatusBadRequest /\
  fired inner metricsResultTargetRequestForbidden /\
  body inner = (bytes_of_string "Bad Request" ++ [10])%list /\
  status outer = Some StatusBadRequest /\
  returned outer = false /\
  payloadErrorToPayloadStatusCode ErrGatewayTargetForbidden = StatusForbidden.
Proof. vm_compute. repeat split. Qed.

(** C3, on the code: whenever the OHTTP handler returns on a POST with
    the OHTTP request content type, a success included, the statements
    after the switch add invalid_content_type and the status label of 400
    to the bag. *)
Theorem C3_dispatch_also_fires_invalid_content_type (L : Library) (s : gatewayResource)
    (r : Request) (draw : Z) (σ1 : World) :
  Method r = MethodPost ->
  Header_Get (ReqHeader r) "Content-Type" = ohttpRequestContentType ->
  ohttpGatewayHandler s r
    (set_metrics {| eventName := metricsEventGatewayRequest; resultLabels := ∅ |}
       (newWorld draw)) = Ok tt σ1 ->
  resultLabels (metrics σ1) !! metricsResultInvalidContentType = None ->
  let res := ServeHTTP (gatewayHandler s) r draw in
  fired res metricsResultInvalidContentType /\
  is_Some (labels res !! "POST_response_status_400") /\
  (forall l, resultLabels (metrics σ1) !! l = Some true -> fired res l).
Proof.
  intros Hm Hct Hrun Hfresh res. subst res. unfold ServeHTTP.
  rewrite (gatewayHandler_after_return s r (newWorld draw) σ1 Hm Hct Hrun Hfresh).
  set (σ2 := set_w _ (fireIn metricsResultInvalidContentType σ1)).
  assert (Hict : resultLabels (metrics σ2) !! metricsResultInvalidContentType = Some true).
  { apply lookup_insert_eq. }
  assert (Hold : forall l, resultLabels (metrics σ1) !! l = Some true ->
                           resultLabels (metrics σ2) !! l = Some true).
  { intros l Hl. cbn. destruct (decide (metricsResultInvalidContentType = l)) as [<-|Hne].
    - apply lookup_insert_eq.
    - now rewrite lookup_insert_ne. }
  destruct (Fire_keeps "POST_response_status_400" σ2) as (_ & _ & Hkeep).
  unfold fired, labels. split; [now apply Hkeep|]. split.
  - unfold Fire. destruct (resultLabels (metrics σ2) !! "POST_response_status_400") eqn:E.
    + cbn [world_of]. rewrite E. eauto.
    + cbn. rewrite lookup_insert_eq. eauto.
  - intros l Hl. now apply Hkeep, Hold.
Qed.

(** C3 on a metadata request that succeeds: the bag ends with four
    labels. *)
Lemma C3_witness :
  let res := ServeHTTP (@gatewayHandler toyLibrary testTarget)
               (clientRequest defaultMetadataEndpoint testConfig [0xCA; 0xFE]) 0 in
  status res = Some StatusOK /\
  fired res metricsResultSuccess /\
  fired res "POST_response_status_200" /\
  fired res metricsResultInvalidContentType /\
  is_Some (labels res !! "POST_response_status_400").
Proof.
  split; [vm_compute; reflexivity|].
  split; [vm_compute; reflexivity|].
  split; [vm_compute; reflexivity|].
  refine (let H := C3_dispatch_also_fires_invalid_content_type toyLibrary testTarget
                     (clientRequest defaultMetadataEndpoint testConfig [0xCA; 0xFE]) 0 _
                     eq_refl eq_refl eq_refl eq_refl in
          conj (proj1 H) (proj1 (proj2 H))).
Defined.

(** The successful run in full, and a run that fails decapsulation: there
    the status label of 400 is fired twice, which the bag refuses. *)
Example dispatched_post_runs :
  let ok := ServeHTTP (@gatewayHandler toyLibrary testTarget)
              (clientRequest defaultMetadataEndpoint testConfig [0xCA; 0xFE]) 0 in
  let bad := ServeHTTP (@gatewayHandler toyLibrary testTarget)
               (clientRequest defaultMetadataEndpoint invalidKeyConfig [0xCA; 0xFE]) 0 in
  returned ok = true /\
  status ok = Some StatusOK /\
  fired ok metricsResultSuccess /\
  fired ok "POST_response_status_200" /\
  fired ok metricsResultInvalidContentType /\
  fired ok "POST_response_status_400" /\
  size (labels ok) = 4%nat /\
  returned bad = false /\
  status bad = Some StatusBadRequest /\
  fired bad "POST_response_status_400".
Proof. vm_compute. repeat split. Qed.


(** * Further properties of the frontend *)

(** [http.Error] on a response without status, in full. *)
Lemma http_Error_fresh (txt : string) (st : Z) (rw : ResponseWriter) :
  Code rw = None ->
  let h := Header_Set (Header_Set (Header_Del (HeaderMap rw) "Content-Length")
                         "Content-Type" "text/plain; charset=utf-8")
             "X-Content-Type-Options" "nosniff" in
  http_Error txt st rw =
  {| HeaderMap := h; Code := Some st; Sent := h;
     Written := (Written rw ++ bytes_of_string txt ++ [10])%list |}.
Proof.
  intros Hc h. subst h. destruct rw as [hm c sn wr]. simpl in Hc. subst c.
  unfold http_Error, ResponseWriter_Write, ResponseWriter_WriteHeader,
    SetHeader, DelHeader. cbn [Code HeaderMap Sent Written].
  now rewrite bytes_of_string_app.
Qed.

(** [http.Error] on a response whose status is out: only the body
    grows. *)
Lemma http_Error_late (txt : string) (st c : Z) (rw : ResponseWriter) :
  Code rw = Some c ->
  Code (http_Error txt st rw) = Some c /\
  Sent (http_Error txt st rw) = Sent rw /\
  Written (http_Error txt st rw) = (Written rw ++ bytes_of_string txt ++ [10])%list.
Proof.
  intros Hc. destruct rw as [hm c' sn wr]. simpl in Hc. subst c'.
  unfold http_Error, ResponseWriter_Write, ResponseWriter_WriteHeader,
    SetHeader, DelHeader. cbn [Code HeaderMap Sent Written].
  now rewrite bytes_of_string_app.
Qed.

(** [httpError] when the bag accepts the status label. *)
Lemma httpError_fresh (s : gatewayResource) (st : Z) (msg p : string) (σ : World) :
  resultLabels (metrics σ) !! (p ++ "_response_status_" ++ pretty st) = None ->
  httpError s st msg p σ =
  Ok tt (fireIn (p ++ "_response_status_" ++ pretty st)
           (set_w (http_Error (errorText s st msg) st (w σ)) σ)).
Proof. intros H. rewrite httpError_eq. now rewrite Fire_fresh. Qed.

(** One outcome label and then [httpError], on an empty bag. *)
Lemma fire_httpError_run (s : gatewayResource) (l : string) (st : Z) (msg p : string)
    (σ : World) :
  resultLabels (metrics σ) = ∅ ->
  (String.length l < 17 + String.length (pretty st))%nat ->
  (Fire l ;; httpError s st msg p) σ =
  Ok tt (fireIn (p ++ "_response_status_" ++ pretty st)
           (set_w (http_Error (errorText s st msg) st (w σ)) (fireIn l σ))).
Proof.
  intros He Hlen. unfold mbind, M_bind.
  rewrite Fire_fresh by (rewrite He; apply lookup_empty).
  rewrite httpError_fresh; [reflexivity|].
  cbn. rewrite He. rewrite lookup_insert_ne; [apply lookup_empty|].
  intros E. symmetry in E. revert E. now apply statusLabel_ne.
Qed.

Section FrontendMore.
Context {L : Library}.

(** X1: a path without handler is answered 400 by the OHTTP handler with
    the text Unknown handler (or the status text when debug is off); the
    only label is the status label, and the body is not even read. *)
Theorem ohttp_unknown_handler (s : gatewayResource) (r : Request) (σ : World) :
  encapsulationHandlers s !! Path r = None ->
  Code (w σ) = None ->
  resultLabels (metrics σ) = ∅ ->
  exists σ',
    ohttpGatewayHandler s r σ = Ok tt σ' /\
    Code (w σ') = Some StatusBadRequest /\
    Written (w σ') =
      (Written (w σ) ++
       bytes_of_string (if debugResponse s then "Unknown handler" else "Bad Request") ++ [10])%list /\
    resultLabels (metrics σ') = {[ Method r ++ "_response_status_400" := true ]} /\
    outbound σ' = outbound σ.
Proof.
  intros Hh Hc He. unfold ohttpGatewayHandler. rewrite Hh.
  rewrite httpError_fresh by (rewrite He; apply lookup_empty).
  eexists. split; [reflexivity|].
  cbn [fireIn set_metrics set_w w metrics resultLabels outbound].
  rewrite (http_Error_fresh _ _ _ Hc). cbn [Code Written]. rewrite He.
  split; [reflexivity|]. split; [|split; reflexivity].
  unfold errorText. destruct (debugResponse s); reflexivity.
Qed.


End FrontendMore.

Section FrontendRuns.
Context {L : Library}.

(** X3: a dispatch that succeeds is answered 200 with Content-Type
    message/ohttp-res and Connection Keep-Alive, and the body is the
    marshalled response followed by the error line of the statements after
    the switch. *)
Theorem gateway_success_response (s : gatewayResource) (r : Request) (draw : Z)
    (eh : EncapsulationHandler) (bs : bytes) (req : EncapsulatedRequest)
    (resp : EncapsulatedResponse) (σ1 : World) :
  Method r = MethodPost ->
  Header_Get (ReqHeader r) "Content-Type" = ohttpRequestContentType ->
  encapsulationHandlers s !! Path r = Some eh ->
  Body r = Some bs ->
  UnmarshalEncapsulatedRequest bs = Some req ->
  eh r req (gatewayWorld draw) = Ok (inr resp) σ1 ->
  w σ1 = NewRecorder ->
  resultLabels (metrics σ1) !! "POST_response_status_200" = None ->
  resultLabels (metrics σ1) !! metricsResultInvalidContentType = None ->
  resultLabels (metrics σ1) !! "POST_response_status_400" = None ->
  let res := ServeHTTP (gatewayHandler s) r draw in
  returned res = true /\
  status res = Some StatusOK /\
  sent res = ohttpResponseHeaders /\
  body res =
    (EncapsulatedResponse_Marshal resp ++
     bytes_of_string (if debugResponse s
                      then "Invalid content type: message/ohttp-req"
                      else "Bad Request") ++ [10])%list.
Proof.
  intros Hm Hct Hh Hb Hu Heh Hw H200 Hict H400 res. subst res.
  unfold ServeHTTP, gatewayWorld in *.
  assert (Hrun : ohttpGatewayHandler s r
                   (set_metrics {| eventName := metricsEventGatewayRequest;
                                   resultLabels := ∅ |} (newWorld draw)) =
            Ok tt (fireIn "POST_response_status_200"
                     (set_w (ResponseWriter_Write (EncapsulatedResponse_Marshal resp)
                               (SetHeader "Connection" "Keep-Alive"
                                  (SetHeader "Content-Type" ohttpResponseContentType
                                     NewRecorder))) σ1))).
  { rewrite (ohttpGatewayHandler_dispatch s r _ eh bs req Hh Hb Hu), Heh.
    unfold mbind, M_bind, onWriter, modify, ResponseStatus. rewrite Hm.
    cbn [set_w w]. rewrite Hw. now rewrite Fire_fresh. }
  rewrite (gatewayHandler_after_return s r (newWorld draw) _ Hm Hct Hrun).
  2:{ cbn. rewrite lookup_insert_ne by discriminate. exact Hict. }
  rewrite Fire_fresh.
  2:{ cbn. rewrite lookup_insert_ne by discriminate.
      rewrite lookup_insert_ne by discriminate. exact H400. }
  unfold returned, status, sent, body. cbn [world_of fireIn set_metrics set_w w].
  destruct (http_Error_late
              (errorText s StatusBadRequest ("Invalid content type: " ++ ohttpRequestContentType))
              StatusBadRequest StatusOK
              (ResponseWriter_Write (EncapsulatedResponse_Marshal resp)
                 (SetHeader "Connection" "Keep-Alive"
                    (SetHeader "Content-Type" ohttpResponseContentType NewRecorder))))
    as (Hc & Hs & Hwr); [reflexivity|].
  rewrite Hc, Hs, Hwr. split; [reflexivity|]. split; [reflexivity|]. split; [reflexivity|].
  unfold errorText. destruct (debugResponse s); reflexivity.
Qed.

(** X4: when the OHTTP handler has answered 400 on its own, the statements
    after the switch fire the status label of 400 a second time and the
    bag panics: [gatewayHandler] does not return, the status 400 stays. *)
Theorem gateway_bad_request_fires_twice (s : gatewayResource) (r : Request) (draw : Z)
    (σ1 : World) :
  Method r = MethodPost ->
  Header_Get (ReqHeader r) "Content-Type" = ohttpRequestContentType ->
  ohttpGatewayHandler s r (gatewayWorld draw) = Ok tt σ1 ->
  Code (w σ1) = Some StatusBadRequest ->
  resultLabels (metrics σ1) !! metricsResultInvalidContentType = None ->
  is_Some (resultLabels (metrics σ1) !! "POST_response_status_400") ->
  exists σ2,
    ServeHTTP (gatewayHandler s) r draw =
      Panic "Metrics.Fire called twice for the same result" σ2 /\
    Code (w σ2) = Some StatusBadRequest /\
    resultLabels (metrics σ2) !! metricsResultInvalidContentType = Some true.
Proof.
  intros Hm Hct Hrun Hc Hict [b H400]. unfold ServeHTTP, gatewayWorld in *.
  rewrite (gatewayHandler_after_return s r (newWorld draw) σ1 Hm Hct Hrun Hict).
  unfold Fire. cbn [fireIn set_metrics set_w metrics resultLabels].
  rewrite lookup_insert_ne by discriminate. rewrite H400.
  eexists. split; [reflexivity|]. cbn [set_w w metrics resultLabels].
  rewrite http_Error_Code, Hc. split; [reflexivity | apply lookup_insert_eq].
Qed.

End FrontendRuns.

(** * Who writes the outer response *)

Lemma keepsResponse_ret {A : Type} (a : A) : keepsResponse (mret a).
Proof. intros σ. reflexivity. Qed.

Lemma keepsResponse_bind {A B : Type} (m : M A) (f : A -> M B) :
  keepsResponse m -> (forall a, keepsResponse (f a)) -> keepsResponse (m ≫= f).
Proof.
  intros Hm Hf σ. unfold mbind, M_bind. specialize (Hm σ).
  destruct (m σ) as [a σ1|msg σ1]; simpl in *.
  - now rewrite Hf.
  - exact Hm.
Qed.

Lemma keepsResponse_Fire (l : string) : keepsResponse (Fire l).
Proof. intros σ. apply Fire_keeps. Qed.

Lemma keepsResponse_outbound (f : list Request -> list Request) :
  keepsResponse (modify (fun σ => set_outbound (f (outbound σ)) σ)).
Proof. intros σ. reflexivity. Qed.

Lemma keepsResponse_chunk (b : bytes) : keepsResponse (EncapsulatedChunkWriter_Write b).
Proof. intros σ. reflexivity. Qed.

Create HintDb frame.
#[export] Hint Resolve keepsResponse_ret keepsResponse_Fire keepsResponse_chunk : frame.
#[export] Hint Extern 2 (keepsResponse (_ ≫= _)) =>
  apply keepsResponse_bind; [|intros ?] : frame.
#[export] Hint Extern 2 (keepsResponse (modify _)) => apply keepsResponse_outbound : frame.

Lemma keepsResponse_Filtered (h : FilteredHttpRequestHandler) (req : Request) :
  keepsResponse (FilteredHttpRequestHandler_Handle h req).
Proof.
  unfold FilteredHttpRequestHandler_Handle.
  assert (Hfetch : keepsResponse
            (modify (fun σ => set_outbound (outbound σ ++ [req]) σ) ;;
             match client h req with
             | inl msg => Fire metricsResultTargetRequestFailed ;; mret (inl (ErrTransport msg))
             | inr resp => Fire metricsResultSuccess ;; mret (inr resp)
             end)).
  { apply keepsResponse_bind.
    - apply (keepsResponse_outbound (fun l => (l ++ [req])%list)).
    - intros _. destruct (client h req); auto with frame. }
  destruct (allowedOrigins h) as [origins|]; [|exact Hfetch].
  destruct (origins !! Host req); [exact Hfetch | auto with frame].
Qed.

Section Frames.
Context {L : Library}.

Lemma keepsResponse_Encode (res : Response) : keepsResponse (BinaryResponseEncoder_Encode res).
Proof.
  unfold BinaryResponseEncoder_Encode. destruct (EncodeBinaryResponse res); auto with frame.
Qed.

Lemma keepsResponse_Binary (hh : HttpRequestHandler) (binaryRequest : bytes) :
  (forall req, keepsResponse (hh req)) ->
  keepsResponse (BinaryHTTPAppHandler_Handle {| httpHandler := hh |} binaryRequest).
Proof.
  intros Hh. unfold BinaryHTTPAppHandler_Handle. cbn [httpHandler].
  destruct (UnmarshalBinaryRequest binaryRequest) as [req|]; [|auto with frame].
  apply keepsResponse_bind; [apply Hh|]. intros [err|resp].
  - destruct err; auto with frame.
  - apply keepsResponse_bind; [apply keepsResponse_Encode|].
    intros [e|]; auto with frame.
Qed.

Lemma leavesResponse_Default (binaryResponse : bytes) (gw : Gateway) (app : AppContentHandler) :
  (forall binaryRequest, keepsResponse (app binaryRequest)) ->
  leavesResponse (DefaultEncapsulationHandler_Handle binaryResponse
                    {| gateway := gw; appHandler := app |}).
Proof.
  intros Happ r req. change (keepsResponse
    (DefaultEncapsulationHandler_Handle binaryResponse
       {| gateway := gw; appHandler := app |} r req)).
  unfold DefaultEncapsulationHandler_Handle. cbn [gateway appHandler].
  destruct (MatchesConfig gw req); cbn [negb]; [|auto with frame].
  destruct (DecapsulateRequest gw req) as [[binaryRequest context]|]; [|auto with frame].
  apply keepsResponse_bind; [apply Happ|]. intros [err|]; [auto with frame|].
  destruct (EncapsulateResponse context binaryResponse); auto with frame.
Qed.

Lemma leavesResponse_Metadata (gw : Gateway) :
  leavesResponse (MetadataEncapsulationHandler_Handle gw).
Proof.
  intros r req. change (keepsResponse (MetadataEncapsulationHandler_Handle gw r req)).
  unfold MetadataEncapsulationHandler_Handle.
  destruct (MatchesConfig gw req); cbn [negb]; [|auto with frame].
  destruct (DecapsulateRequest gw req) as [[binaryRequest context]|]; [|auto with frame].
  destruct (DumpRequest r false) as [d|]; [|auto with frame].
  destruct (EncapsulateResponse context d); auto with frame.
Qed.


End Frames.

(** * The statuses a relay sees *)

(** [httpError] after one more label, on a response without status. *)
Lemma fire_httpError_status (s : gatewayResource) (l : string) (st : Z) (msg p : string)
    (σ : World) :
  Code (w σ) = None ->
  let res := (Fire l ;; httpError s st msg p) σ in
  status res = Some st \/ (returned res = false /\ status res = None).
Proof.
  intros Hc res. subst res. unfold mbind, M_bind.
  pose proof (keepsResponse_Fire l σ) as Hw.
  destruct (Fire l σ) as [[] σ1|m σ1]; simpl in Hw.
  - left. apply httpError_status. now rewrite Hw.
  - right. unfold status. simpl. now rewrite Hw.
Qed.

Lemma ErrEncapsulationToGatewayStatusCode_range (e : error) :
  ErrEncapsulationToGatewayStatusCode e = StatusUnauthorized /\ e = ErrConfigMismatch \/
  ErrEncapsulationToGatewayStatusCode e = StatusBadRequest /\ e ≠ ErrConfigMismatch.
Proof. destruct e; (left; split; reflexivity) || (right; split; [reflexivity | discriminate]). Qed.

Section Range.
Context {L : Library}.

(** The OHTTP handler on a response without status. *)
Lemma ohttpGatewayHandler_status (s : gatewayResource) (r : Request) (σ : World) :
  (forall path eh, encapsulationHandlers s !! path = Some eh -> leavesResponse eh) ->
  Code (w σ) = None ->
  let res := ohttpGatewayHandler s r σ in
  outerStatus (status res) \/ (returned res = false /\ status res = None).
Proof.
  intros Hframe Hc res. subst res. unfold outerStatus.
  destruct (encapsulationHandlers s !! Path r) as [eh|] eqn:Hh.
  2:{ left. right. left. unfold ohttpGatewayHandler. rewrite Hh.
      now apply httpError_status. }
  assert (Hinvalid : Body r = None \/
                     (exists bs, Body r = Some bs /\ UnmarshalEncapsulatedRequest bs = None) ->
            ohttpGatewayHandler s r σ =
            (Fire metricsResultInvalidContent ;;
             httpError s StatusBadRequest "Reading request body failed" (Method r)) σ).
  { unfold ohttpGatewayHandler. rewrite Hh.
    intros [Hb|(bs & Hb & Hu)]; rewrite Hb; [reflexivity | now rewrite Hu]. }
  destruct (Body r) as [bs|] eqn:Hb.
  2:{ rewrite Hinvalid by now left.
      destruct (fire_httpError_status s metricsResultInvalidContent StatusBadRequest
                  "Reading request body failed" (Method r) σ Hc) as [H|H];
        [left; auto | right; exact H]. }
  destruct (UnmarshalEncapsulatedRequest bs) as [req|] eqn:Hu.
  2:{ rewrite Hinvalid by (right; eauto).
      destruct (fire_httpError_status s metricsResultInvalidContent StatusBadRequest
                  "Reading request body failed" (Method r) σ Hc) as [H|H];
        [left; auto | right; exact H]. }
  rewrite (ohttpGatewayHandler_dispatch s r σ eh bs req Hh Hb Hu).
  pose proof (Hframe _ _ Hh r req σ) as Hw.
  destruct (eh r req σ) as [[err|resp] σ1|m σ1]; simpl in Hw.
  - left. rewrite httpError_status by now rewrite Hw.
    destruct (ErrEncapsulationToGatewayStatusCode_range err) as [[-> _]|[-> _]]; auto.
  - left. left. unfold mbind, M_bind, onWriter, modify, ResponseStatus, status.
    match goal with
    | |- Code (w (world_of (Fire ?l ?σ'))) = _ =>
        destruct (Fire_keeps l σ') as (Hk & _ & _); rewrite Hk
    end.
    cbn [set_w w]. rewrite Hw.
    destruct (w σ) as [hm c sn wr]. simpl in Hc. subst c. reflexivity.
  - right. unfold status. simpl. rewrite Hw. split; [reflexivity | exact Hc].
Qed.

(** A panic of the OHTTP handler is the panic of [gatewayHandler]. *)
Lemma gatewayHandler_post_panic (s : gatewayResource) (r : Request) (σ σ1 : World)
    (m : string) :
  Method r = MethodPost ->
  Header_Get (ReqHeader r) "Content-Type" = ohttpRequestContentType ->
  ohttpGatewayHandler s r
    (set_metrics {| eventName := metricsEventGatewayRequest; resultLabels := ∅ |} σ) =
    Panic m σ1 ->
  gatewayHandler s r σ = Panic m σ1.
Proof.
  intros Hm Hct E. rewrite gatewayHandler_post by assumption.
  unfold mbind at 1. unfold M_bind at 1. now rewrite E.
Qed.

(** X6: whatever the request, a gateway endpoint whose handlers leave the
    response alone answers with status 200, 400 or 401 and no other; no
    status is written only when a handler panicked before the answer. *)
Theorem gateway_outer_status_range (s : gatewayResource) (r : Request) (draw : Z) :
  (forall path eh, encapsulationHandlers s !! path = Some eh -> leavesResponse eh) ->
  let res := ServeHTTP (gatewayHandler s) r draw in
  outerStatus (status res) \/ (returned res = false /\ status res = None).
Proof.
  intros Hframe res. subst res. unfold ServeHTTP.
  set (σ0 := set_metrics {| eventName := metricsEventGatewayRequest; resultLabels := ∅ |}
               (newWorld draw)).
  destruct (decide (Method r = MethodPost)) as [Hm|Hm].
  - destruct (decide (Header_Get (ReqHeader r) "Content-Type" = ohttpRequestContentType))
      as [Hct|Hct].
    + destruct (ohttpGatewayHandler_status s r σ0 Hframe eq_refl) as [Hs|[Hr Hs]].
      * left. destruct (ohttpGatewayHandler s r σ0) as [[] σ1|m σ1] eqn:E.
        -- destruct Hs as [Hs|[Hs|Hs]];
             destruct (gatewayHandler_post_keeps s r (newWorld draw) σ1 _ Hm Hct E Hs) as [H _];
             rewrite H; unfold outerStatus; auto.
        -- rewrite (gatewayHandler_post_panic s r (newWorld draw) σ1 m Hm Hct E). exact Hs.
      * right. destruct (ohttpGatewayHandler s r σ0) as [[] σ1|m σ1] eqn:E; [discriminate|].
        rewrite (gatewayHandler_post_panic s r (newWorld draw) σ1 m Hm Hct E).
        split; [reflexivity | exact Hs].
    + left. right. left. unfold gatewayHandler, mbind, M_bind, Create, modify.
      destruct (decide (Method r ≠ MethodPost)) as [|_]; [contradiction|].
      destruct (decide (_ = ohttpRequestContentType)) as [|_]; [contradiction|].
      assert (Hsw : forall σ,
                (if decide (Header_Get (ReqHeader r) "Content-Type" = ohttpChunkedRequestContentType)
                 then ohttpChunkedGatewayHandler s r else mret tt) σ = Ok tt σ).
      { intros σ. destruct (decide _); reflexivity. }
      rewrite Hsw. rewrite Fire_fresh by apply lookup_empty.
      now apply httpError_status.
  - left. right. left. unfold gatewayHandler, mbind, M_bind, Create, modify.
    destruct (decide (Method r ≠ MethodPost)) as [_|]; [|contradiction].
    rewrite Fire_fresh by apply lookup_empty. now apply httpError_status.
Qed.

End Range.

(** * Further properties of the handler chain *)

Lemma Fire_chunks (l : string) (σ : World) : chunks (world_of (Fire l σ)) = chunks σ.
Proof. unfold Fire. destruct (resultLabels (metrics σ) !! l); reflexivity. Qed.

Lemma Fire_outbound (l : string) (σ : World) : outbound (world_of (Fire l σ)) = outbound σ.
Proof. apply Fire_keeps. Qed.

Section HandlerChain.
Context {L : Library}.

(** X7: a request that matches no configuration, or that does not
    decapsulate, never reaches the application handler: nothing is
    fetched and nothing is written to the chunk writer, whatever
    application handler is installed. *)
Theorem no_application_work_before_decapsulation (binaryResponse : bytes)
    (h : DefaultEncapsulationHandler) (r : Request) (req : EncapsulatedRequest) (σ : World) :
  MatchesConfig (gateway h) req = false \/ DecapsulateRequest (gateway h) req = None ->
  let res := DefaultEncapsulationHandler_Handle binaryResponse h r req σ in
  outbound (world_of res) = outbound σ /\
  chunks (world_of res) = chunks σ /\
  forall resp σ', res ≠ Ok (inr resp) σ'.
Proof.
  intros Hfail res. subst res. unfold DefaultEncapsulationHandler_Handle.
  destruct (MatchesConfig (gateway h) req) eqn:Hm; cbn [negb].
  - destruct Hfail as [Hf|Hd]; [discriminate|]. rewrite Hd.
    unfold mbind, M_bind.
    pose proof (Fire_outbound metricsResultDecapsulationFailed σ) as Ho.
    pose proof (Fire_chunks metricsResultDecapsulationFailed σ) as Hk.
    destruct (Fire metricsResultDecapsulationFailed σ) as [[] σ1|m σ1]; simpl in *;
      (split; [exact Ho | split; [exact Hk | intros resp σ'; discriminate]]).
  - unfold mbind, M_bind.
    pose proof (Fire_outbound metricsResultConfigurationMismatch σ) as Ho.
    pose proof (Fire_chunks metricsResultConfigurationMismatch σ) as Hk.
    destruct (Fire metricsResultConfigurationMismatch σ) as [[] σ1|m σ1]; simpl in *;
      (split; [exact Ho | split; [exact Hk | intros resp σ'; discriminate]]).
Qed.

(** X8: the metadata handler, once the request is decapsulated, does not
    look at the plaintext: a failed dump gives GatewayInternalServer and
    fires nothing; a dump that cannot be sealed gives an encapsulation
    error with encapsulation_failed; otherwise the sealed dump of the
    outer request is returned with the label success. *)
Theorem metadata_handler_outcomes (gw : Gateway) (r : Request) (req : EncapsulatedRequest)
    (plaintext : bytes) (context : DecapsulateRequestContext) (σ : World) :
  MatchesConfig gw req = true ->
  DecapsulateRequest gw req = Some (plaintext, context) ->
  let res := MetadataEncapsulationHandler_Handle gw r req σ in
  (DumpRequest r false = None ->
     res = Ok (inl ErrGatewayInternalServer) σ) /\
  (forall dump, DumpRequest r false = Some dump ->
     EncapsulateResponse context dump = None ->
     resultLabels (metrics σ) !! metricsResultEncapsulationFailed = None ->
     res = Ok (inl ErrEncapsulation) (fireIn metricsResultEncapsulationFailed σ)) /\
  (forall dump sealedDump, DumpRequest r false = Some dump ->
     EncapsulateResponse context dump = Some sealedDump ->
     resultLabels (metrics σ) !! metricsResultSuccess = None ->
     res = Ok (inr sealedDump) (fireIn metricsResultSuccess σ)).
Proof.
  intros Hm Hd res. subst res. unfold MetadataEncapsulationHandler_Handle.
  rewrite Hm, Hd. cbn [negb]. split; [|split].
  - intros Hdump. now rewrite Hdump.
  - intros dump Hdump Hseal Hfresh. rewrite Hdump, Hseal.
    unfold mbind, M_bind. now rewrite Fire_fresh.
  - intros dump sealedDump Hdump Hseal Hfresh. rewrite Hdump, Hseal.
    unfold mbind, M_bind. now rewrite Fire_fresh.
Qed.

(** X9: the application handler fails only with one of the three
    application-tier errors, whatever the HTTP handler under it returns:
    the error of the client and any other error become
    GatewayInternalServer. *)
Theorem binary_app_handler_errors (h : BinaryHTTPAppHandler) (binaryRequest : bytes)
    (σ σ' : World) (e : error) :
  BinaryHTTPAppHandler_Handle h binaryRequest σ = Ok (Some e) σ' ->
  e = ErrPayloadMarshalling \/ e = ErrGatewayTargetForbidden \/ e = ErrGatewayInternalServer.
Proof.
  unfold BinaryHTTPAppHandler_Handle.
  destruct (UnmarshalBinaryRequest binaryRequest) as [req|].
  - unfold mbind at 1. unfold M_bind at 1.
    destruct (httpHandler h req σ) as [[err|resp] σ1|m σ1]; [| |discriminate].
    + destruct err; intros [= <- _]; auto.
    + unfold mbind at 1. unfold M_bind at 1.
      destruct (BinaryResponseEncoder_Encode resp σ1) as [[encErr|] σ2|m σ2]; [| |discriminate].
      * unfold mbind, M_bind. destruct (Fire _ σ2); [|discriminate]. intros [= <- _]; auto.
      * unfold mbind, M_bind. destruct (Fire _ σ2); discriminate.
  - unfold mbind, M_bind. destruct (Fire _ σ); [|discriminate]. intros [= <- _]; auto.
Qed.


End HandlerChain.

(** X11: a host is permitted by its presence as a key of the allowlist,
    not by the value stored under it; the permitted request goes to the
    client once and the client's response is returned as it is, with the
    label success. *)
Theorem filtered_handler_permitted (h : FilteredHttpRequestHandler) (req : Request)
    (resp : Response) (σ : World) :
  allowedOrigins h = None \/
    (exists origins flag, allowedOrigins h = Some origins /\ origins !! Host req = Some flag) ->
  client h req = inr resp ->
  resultLabels (metrics σ) !! metricsResultSuccess = None ->
  FilteredHttpRequestHandler_Handle h req σ =
    Ok (inr resp) (fireIn metricsResultSuccess (set_outbound (outbound σ ++ [req]) σ)).
Proof.
  intros Hallowed Hfetch Hfresh. rewrite fetch_outbound.
  - rewrite Hfetch. unfold mbind, M_bind, modify. now rewrite Fire_fresh.
  - destruct Hallowed as [Hn|(origins & flag & Ho & Hin)]; [now left|].
    right. exists origins. split; [exact Ho | eauto].
Qed.

(** * The metrics bag of the tests *)

(** Firing a list of labels returns exactly when no label is in the bag
    already and no label comes twice; the bag then holds the old labels
    and the new ones. *)
Lemma fireAll_returns (ls : list string) (σ : World) :
  returned (fireAll ls σ) = true <->
  NoDup ls /\ forall l, l ∈ ls -> resultLabels (metrics σ) !! l = None.
Proof.
  revert σ. induction ls as [|l ls IH]; intros σ; simpl.
  - split; [intros _; split; [constructor | intros l Hl; inversion Hl] | reflexivity].
  - unfold mbind, M_bind, Fire.
    destruct (resultLabels (metrics σ) !! l) as [b|] eqn:E.
    + split; [discriminate|]. intros [_ H]. rewrite H in E by left. discriminate.
    + rewrite IH. cbn [set_metrics metrics resultLabels]. split.
      * intros [Hnd Hfresh]. split.
        -- constructor; [|exact Hnd]. intros Hin. specialize (Hfresh l Hin).
           rewrite lookup_insert_eq in Hfresh. discriminate.
        -- intros l' Hl'. apply elem_of_cons in Hl' as [->|Hl']; [exact E|].
           specialize (Hfresh l' Hl'). destruct (decide (l = l')) as [->|Hne].
           ++ rewrite lookup_insert_eq in Hfresh. discriminate.
           ++ now rewrite lookup_insert_ne in Hfresh.
      * intros [Hnd Hfresh]. apply NoDup_cons in Hnd as [Hnin Hnd]. split; [exact Hnd|].
        intros l' Hl'. rewrite lookup_insert_ne; [apply Hfresh; now right|].
        intros ->. contradiction.
Qed.

Lemma fireAll_labels (ls : list string) (σ σ' : World) :
  fireAll ls σ = Ok tt σ' ->
  forall l, resultLabels (metrics σ') !! l =
            if decide (l ∈ ls) then Some true else resultLabels (metrics σ) !! l.
Proof.
  revert σ. induction ls as [|l0 ls IH]; intros σ; simpl.
  - intros [= <-] l. destruct (decide (l ∈ [])) as [H|_]; [inversion H | reflexivity].
  - unfold mbind, M_bind, Fire.
    destruct (resultLabels (metrics σ) !! l0) as [b|] eqn:E; [discriminate|].
    intros Hrun l. rewrite (IH _ Hrun l). cbn [set_metrics metrics resultLabels].
    destruct (decide (l ∈ ls)) as [Hin|Hnin].
    + rewrite decide_True by now right. reflexivity.
    + destruct (decide (l = l0)) as [->|Hne].
      * rewrite decide_True by left. apply lookup_insert_eq.
      * rewrite decide_False by (intros H; apply elem_of_cons in H as [?|?]; contradiction).
        now rewrite lookup_insert_ne.
Qed.

(** X12: on a new bag a run of [Fire] calls returns exactly when the
    labels are pairwise distinct; it then holds exactly the labels fired,
    each with the value true, and otherwise it panics. *)
Theorem bag_fires_each_label_once (event : string) (ls : list string) (σ : World) :
  let res := (Create event ;; fireAll ls) σ in
  (returned res = true <-> NoDup ls) /\
  (returned res = true ->
   forall l, labels res !! l = if decide (l ∈ ls) then Some true else None).
Proof.
  intros res. subst res. unfold mbind, M_bind, Create, modify.
  set (σ0 := set_metrics {| eventName := event; resultLabels := ∅ |} σ). split.
  - rewrite fireAll_returns. split; [now intros [H _]|].
    intros H. split; [exact H | intros l _; apply lookup_empty].
  - intros Hret l. destruct (fireAll ls σ0) as [[] σ1|m σ1] eqn:E; [|discriminate].
    unfold labels. cbn [world_of]. rewrite (fireAll_labels ls σ0 σ1 E l).
    destruct (decide (l ∈ ls)); [reflexivity | apply lookup_empty].
Qed.

(** ** Status labels *)

Lemma append_inj_l (p x y : string) : p ++ x = p ++ y -> x = y.
Proof. induction p as [|a p IH]; simpl; [auto | intros [= H]; auto]. Qed.

(** X13: two response-status labels with the same prefix are equal only
    for the same status, so reporting two different statuses for one
    request never trips the bag, and reporting one status twice always
    does. *)
Theorem response_status_twice (prefix : string) (a b : Z) (σ : World) :
  resultLabels (metrics σ) = ∅ ->
  (returned ((ResponseStatus prefix a ;; ResponseStatus prefix b) σ) = true <-> a ≠ b).
Proof.
  intros He. unfold ResponseStatus, mbind, M_bind.
  rewrite Fire_fresh by (rewrite He; apply lookup_empty).
  unfold Fire. cbn [fireIn set_metrics metrics resultLabels]. rewrite He.
  destruct (decide (a = b)) as [->|Hne].
  - rewrite lookup_insert_eq. split; [discriminate | contradiction].
  - rewrite lookup_insert_ne.
    + rewrite lookup_empty. split; [intros _; exact Hne | reflexivity].
    + intros E. apply append_inj_l, append_inj_l in E. apply Hne.
      now apply (inj pretty).
Qed.

(** * Error responses in full *)

Section ErrorResponses.
Context {L : Library}.

(** A request that is not a POST stops at the method check. *)
Lemma gatewayHandler_not_post (s : gatewayResource) (r : Request) (σ : World) :
  Method r ≠ MethodPost ->
  gatewayHandler s r σ =
  (Fire metricsResultInvalidMethod ;;
   httpError s StatusBadRequest ("Invalid method: " ++ Method r) (Method r))
    (set_metrics {| eventName := metricsEventGatewayRequest; resultLabels := ∅ |} σ).
Proof.
  intros Hm. unfold gatewayHandler.
  unfold mbind at 1. unfold M_bind at 1. unfold Create, modify.
  destruct (decide (Method r ≠ MethodPost)) as [_|]; [reflexivity | contradiction].
Qed.

(** X14: the answer to a request that is not a POST, in full: status
    400, the headers of [http.Error], exactly the two labels
    invalid_method and the status label, and a body that names the method
    only in debug mode. *)
Theorem invalid_method_response (s : gatewayResource) (r : Request) (draw : Z) :
  Method r ≠ MethodPost ->
  let res := ServeHTTP (gatewayHandler s) r draw in
  returned res = true /\
  status res = Some StatusBadRequest /\
  sent res = errorHeaders /\
  body res = (bytes_of_string (if debugResponse s then "Invalid method: " ++ Method r
                               else "Bad Request") ++ [10])%list /\
  labels res = <[ Method r ++ "_response_status_400" := true ]>
                 {[ metricsResultInvalidMethod := true ]} /\
  outbound (world_of res) = [].
Proof.
  intros Hm res. subst res. unfold ServeHTTP.
  rewrite gatewayHandler_not_post by exact Hm.
  rewrite fire_httpError_run by (reflexivity || (vm_compute; lia)).
  unfold returned, status, sent, body, labels.
  cbn [world_of fireIn set_metrics set_w w metrics resultLabels outbound newWorld].
  rewrite (http_Error_fresh _ _ NewRecorder eq_refl). cbn [Code Sent Written].
  split; [reflexivity|]. split; [reflexivity|]. split; [reflexivity|].
  split; [|split; reflexivity].
  unfold errorText. destruct (debugResponse s); reflexivity.
Qed.

End ErrorResponses.

(** * Start-up *)

(** X15: the legacy key ID of [main] is below 255, differs from the
    primary key ID, and is shared by two primary key IDs only for 127 and
    128, which both give 0. *)
Theorem legacyConfigID_characterised (k k' : Z) :
  0 <= k < 256 ->
  0 <= k' < 256 ->
  0 <= legacyConfigID k < 255 /\
  legacyConfigID k ≠ k /\
  (legacyConfigID k = legacyConfigID k' <->
   k = k' \/ (k = 127 /\ k' = 128) \/ (k = 128 /\ k' = 127)).
Proof.
  intros Hk Hk'. rewrite !legacyConfigID_cases by assumption.
  repeat (destruct (decide _)); lia.
Qed.

Lemma lxor_255_involutive (b : Z) : Z.lxor (Z.lxor b 0xFF) 0xFF = b.
Proof. now rewrite Z.lxor_assoc, Z.lxor_nilpotent, Z.lxor_0_r. Qed.

Lemma lxor_255_ne (b : Z) : Z.lxor b 0xFF ≠ b.
Proof.
  intros E. assert (H : Z.lxor b (Z.lxor b 0xFF) = 0) by (rewrite E; apply Z.lxor_nilpotent).
  rewrite <- Z.lxor_assoc, Z.lxor_nilpotent, Z.lxor_0_l in H. discriminate.
Qed.

Lemma lxor_255_byte (b : Z) : 0 <= b < 256 -> 0 <= Z.lxor b 0xFF < 256.
Proof.
  intros Hb. split; [apply Z.lxor_nonneg; lia|].
  destruct (decide (Z.lxor b 0xFF = 0)) as [->|Hne]; [lia|].
  assert (Hpos : 0 < Z.lxor b 0xFF) by (pose proof (proj2 (Z.lxor_nonneg b 0xFF)); lia).
  apply (Z.log2_lt_pow2 _ 8 Hpos).
  eapply Z.le_lt_trans; [apply Z.log2_lxor; lia|].
  apply Z.max_lub_lt; [|reflexivity].
  destruct (decide (b = 0)) as [->|Hb0]; [reflexivity|].
  apply Z.log2_lt_pow2; lia.
Qed.

(** X16: the seed update of [main] fails only on the empty seed; on any
    other seed it keeps the length and every byte but the last, changes
    the last byte into another byte, and undoes itself when applied
    twice. *)
Theorem xorLastByte_properties (sd : bytes) :
  (xorLastByte sd = None <-> sd = []) /\
  (forall sd', xorLastByte sd = Some sd' ->
     length sd' = length sd /\
     take (length sd - 1) sd' = take (length sd - 1) sd /\
     sd' ≠ sd /\
     xorLastByte sd' = Some sd /\
     (Forall (fun b => 0 <= b < 256) sd -> Forall (fun b => 0 <= b < 256) sd')).
Proof.
  split.
  - split; [|intros ->; reflexivity].
    destruct sd as [|b sd]; [reflexivity|]. intros H. exfalso.
    assert (Hne : b :: sd <> []) by discriminate.
    destruct (exists_last Hne) as (init & last & E). rewrite E, xorLastByte_snoc in H.
    discriminate.
  - intros sd' H. destruct sd as [|b sd]; [discriminate|].
    assert (Hne : b :: sd <> []) by discriminate.
    destruct (exists_last Hne) as (init & last & E). rewrite E in *. clear E Hne.
    rewrite xorLastByte_snoc in H. injection H as <-.
    rewrite !length_app. cbn [length].
    replace (length init + 1 - 1)%nat with (length init) by lia.
    split; [reflexivity|]. split; [rewrite !take_app_length; reflexivity|].
    split; [|split].
    + intros E. apply app_inj_tail in E as [_ E]. now apply lxor_255_ne in E.
    + now rewrite xorLastByte_snoc, lxor_255_involutive.
    + rewrite !Forall_app. intros [Hi Hl]. split; [exact Hi|].
      rewrite Forall_singleton in *. apply lxor_255_byte. exact Hl.
Qed.

(** * The allowlist of main *)

Lemma Split_nonempty (sep : ascii) (s : string) : strings_Split sep s ≠ [].
Proof.
  destruct s as [|a rest]; simpl; [discriminate|].
  destruct (decide (a = sep)); [discriminate|].
  destruct (strings_Split sep rest); discriminate.
Qed.

Lemma Join_cons (sep : ascii) (piece : string) (pieces : list string) :
  pieces ≠ [] -> strings_Join sep (piece :: pieces) = piece ++ String sep (strings_Join sep pieces).
Proof. destruct pieces; [contradiction | reflexivity]. Qed.

(** Splitting and joining again gives the string back. *)
Lemma Join_Split (sep : ascii) (s : string) : strings_Join sep (strings_Split sep s) = s.
Proof.
  induction s as [|a rest IH]; [reflexivity|]. simpl.
  destruct (decide (a = sep)) as [->|Hne].
  - rewrite Join_cons by apply Split_nonempty. simpl. now rewrite IH.
  - pose proof (Split_nonempty sep rest) as Hn.
    destruct (strings_Split sep rest) as [|piece pieces]; [contradiction|].
    destruct pieces as [|p ps].
    + simpl in *. now rewrite IH.
    + rewrite Join_cons by discriminate. rewrite Join_cons in IH by discriminate.
      rewrite <- IH. reflexivity.
Qed.

(** No piece contains the separator. *)
Lemma Split_pieces (sep : ascii) (s piece : string) :
  piece ∈ strings_Split sep s -> sep ∉ list_ascii_of_string piece.
Proof.
  revert piece. induction s as [|a rest IH]; intros piece; simpl.
  - intros H. apply list_elem_of_singleton in H as ->. simpl. apply not_elem_of_nil.
  - destruct (decide (a = sep)) as [->|Hne].
    + intros H. apply elem_of_cons in H as [->|H]; [simpl; apply not_elem_of_nil | now apply IH].
    + pose proof (Split_nonempty sep rest) as Hn.
      destruct (strings_Split sep rest) as [|p ps]; [contradiction|].
      intros H. apply elem_of_cons in H as [->|H].
      * simpl. intros Hin. apply elem_of_cons in Hin as [E|Hin]; [congruence|].
        revert Hin. apply IH. left.
      * apply IH. now right.
Qed.

Lemma allowlist_lookup (origins : list string) (m : gmap string bool) (host : string) :
  foldl (fun allowed origin => <[origin := true]> allowed) m origins !! host =
  if decide (host ∈ origins) then Some true else m !! host.
Proof.
  revert m. induction origins as [|o os IH]; intros m; simpl.
  - destruct (decide (host ∈ [])) as [H|_]; [inversion H | reflexivity].
  - rewrite IH. destruct (decide (host ∈ os)) as [Hin|Hnin].
    + rewrite decide_True by now right. reflexivity.
    + destruct (decide (host = o)) as [->|Hne].
      * rewrite decide_True by left. apply lookup_insert_eq.
      * rewrite decide_False by (intros H; apply elem_of_cons in H as [?|?]; contradiction).
        now rewrite lookup_insert_ne.
Qed.

(** X17: the allowlist [main] builds is nil exactly for the empty
    variable; otherwise it is not empty, its keys are exactly the pieces
    between the commas (taken as they are, the empty piece included),
    every value is true, and the pieces joined by commas give the variable
    back. *)
Theorem main_allowlist (originAllowList : string) :
  (mainAllowedOrigins originAllowList = None <-> originAllowList = "") /\
  (forall origins, mainAllowedOrigins originAllowList = Some origins ->
     origins ≠ ∅ /\
     (forall host, origins !! host =
                   if decide (host ∈ strings_Split ","%char originAllowList) then Some true else None) /\
     strings_Join ","%char (strings_Split ","%char originAllowList) = originAllowList /\
     (forall piece, piece ∈ strings_Split ","%char originAllowList ->
                    ","%char ∉ list_ascii_of_string piece)).
Proof.
  unfold mainAllowedOrigins. split.
  - destruct (decide (originAllowList = "")); split; congruence.
  - intros origins. destruct (decide (originAllowList = "")); [discriminate|].
    intros [= <-]. split; [|split; [|split]].
    + pose proof (Split_nonempty ","%char originAllowList) as Hn.
      destruct (strings_Split ","%char originAllowList) as [|o os] eqn:E; [contradiction|].
      intros Hempty. apply (f_equal (fun m => m !! o)) in Hempty.
      rewrite allowlist_lookup, lookup_empty in Hempty.
      rewrite decide_True in Hempty by left. discriminate.
    + intros host. rewrite allowlist_lookup. now rewrite lookup_empty.
    + apply Join_Split.
    + intros piece. apply Split_pieces.
Qed.

(** X18: with the allowlist of [main], the HTTP handler refuses a host
    exactly when it is none of the comma-separated pieces; no blank is
    trimmed and no case is folded on the way. *)
Theorem main_allowlist_refuses (originAllowList : string) (origins : gmap string bool)
    (h : FilteredHttpRequestHandler) (req : Request) (σ : World) :
  mainAllowedOrigins originAllowList = Some origins ->
  allowedOrigins h = Some origins ->
  resultLabels (metrics σ) !! metricsResultTargetRequestForbidden = None ->
  (FilteredHttpRequestHandler_Handle h req σ =
     Ok (inl ErrGatewayTargetForbidden) (fireIn metricsResultTargetRequestForbidden σ)
   <-> Host req ∉ strings_Split ","%char originAllowList).
Proof.
  intros Hmain Hh Hfresh.
  assert (Hlook : origins !! Host req =
            if decide (Host req ∈ strings_Split ","%char originAllowList)
            then Some true else None).
  { unfold mainAllowedOrigins in Hmain.
    destruct (decide (originAllowList = "")); [discriminate|].
    injection Hmain as <-. rewrite allowlist_lookup. now rewrite lookup_empty. }
  destruct (decide (Host req ∈ strings_Split ","%char originAllowList)) as [Hin|Hnin].
  - split; [|contradiction]. intros Hrun. exfalso.
    rewrite fetch_outbound in Hrun by (right; exists origins; split; [exact Hh | rewrite Hlook; eauto]).
    unfold mbind, M_bind, modify in Hrun.
    destruct (client h req) as [msg|resp].
    + destruct (Fire _ _) in Hrun; discriminate.
    + destruct (Fire _ _) in Hrun; discriminate.
  - split; [intros _; exact Hnin|]. intros _.
    unfold FilteredHttpRequestHandler_Handle. rewrite Hh, Hlook.
    unfold mbind, M_bind. now rewrite Fire_fresh.
Qed.

(** * The further properties on concrete inputs *)

(** X1 on a POST to /nowhere. *)
Lemma ohttp_unknown_handler_witness :
  exists σ',
    @ohttpGatewayHandler toyLibrary testTarget strayPost (newWorld 0) = Ok tt σ' /\
    Code (w σ') = Some StatusBadRequest /\
    Written (w σ') = (bytes_of_string "Unknown handler" ++ [10])%list.
Proof.
  destruct (@ohttp_unknown_handler toyLibrary testTarget strayPost (newWorld 0)
              eq_refl eq_refl eq_refl) as (σ' & H1 & H2 & H3 & _).
  exists σ'. split; [exact H1 | split; [exact H2 | exact H3]].
Defined.


(** X3 on the metadata request of the tests. *)
Lemma gateway_success_response_witness :
  let res := ServeHTTP (@gatewayHandler toyLibrary testTarget)
               (clientRequest defaultMetadataEndpoint testConfig [0xCA; 0xFE]) 0 in
  status res = Some StatusOK /\ sent res = ohttpResponseHeaders.
Proof.
  refine (let H := @gateway_success_response toyLibrary testTarget
                     (clientRequest defaultMetadataEndpoint testConfig [0xCA; 0xFE]) 0
                     (@MetadataEncapsulationHandler_Handle toyLibrary createGateway)
                     (toyEncapsulateRequest (@PrivateConfig_Config toyLibrary testConfig)
                        [0xCA; 0xFE])
                     _ _ _ eq_refl eq_refl eq_refl eq_refl eq_refl eq_refl eq_refl
                     eq_refl eq_refl eq_refl in
          conj (proj1 (proj2 H)) (proj1 (proj2 (proj2 H)))).
Defined.

(** X4 on the POST to /nowhere. *)
Lemma gateway_bad_request_fires_twice_witness :
  exists σ2,
    ServeHTTP (@gatewayHandler toyLibrary testTarget) strayPost 0 =
      Panic "Metrics.Fire called twice for the same result" σ2 /\
    Code (w σ2) = Some StatusBadRequest.
Proof.
  destruct (@gateway_bad_request_fires_twice toyLibrary testTarget strayPost 0 _
              eq_refl eq_refl eq_refl eq_refl eq_refl (ex_intro _ true eq_refl))
    as (σ2 & H1 & H2 & _).
  exists σ2. split; [exact H1 | exact H2].
Defined.

(** The handlers of the test resource leave the response alone. *)
Lemma testTarget_leaves_response (path : string) (eh : EncapsulationHandler) :
  encapsulationHandlers testTarget !! path = Some eh -> leavesResponse eh.
Proof.
  unfold testTarget. cbn [encapsulationHandlers]. intros H.
  apply lookup_insert_Some in H as [[_ <-]|[_ H]].
  - apply leavesResponse_Default. intros binaryRequest.
    apply (@keepsResponse_Binary toyLibrary). intros req. apply keepsResponse_Filtered.
  - apply lookup_insert_Some in H as [[_ <-]|[_ H]].
    + apply (@leavesResponse_Metadata toyLibrary).
    + rewrite lookup_empty in H. discriminate.
Qed.

(** X6 on the forbidden target of the tests. *)
Lemma gateway_outer_status_range_witness :
  let res := ServeHTTP (@gatewayHandler toyLibrary testTarget)
               (clientRequest defaultGatewayEndpoint testConfig
                  (bytes_of_string FORBIDDEN_TARGET)) 0 in
  outerStatus (status res) \/ (returned res = false /\ status res = None).
Proof.
  apply (@gateway_outer_status_range toyLibrary testTarget). exact testTarget_leaves_response.
Defined.

(** X7 on the request of TestGatewayHandlerWithUnknownKey. *)
Lemma no_application_work_before_decapsulation_witness :
  outbound (world_of (DefaultEncapsulationHandler_Handle [] testTargetHandler strayPost
                        {| req_key_id := 254; req_kem_id := KEM_X25519_HKDF_SHA256;
                           req_kdf_id := KDF_HKDF_SHA256; req_aead_id := AEAD_AES128GCM;
                           enc := []; ct := [] |} (newWorld 0))) = [].
Proof.
  apply (@no_application_work_before_decapsulation [] testTargetHandler strayPost
           {| req_key_id := 254; req_kem_id := KEM_X25519_HKDF_SHA256;
              req_kdf_id := KDF_HKDF_SHA256; req_aead_id := AEAD_AES128GCM;
              enc := []; ct := [] |} (newWorld 0)).
  left. reflexivity.
Defined.

(** X8 on a decapsulated metadata request: the dump is sealed and success
    is fired. *)
Lemma metadata_handler_outcomes_witness :
  exists sealedDump,
    @MetadataEncapsulationHandler_Handle toyLibrary createGateway strayPost
      (currentRequest [0xCA; 0xFE]) (newWorld 0) =
    Ok (inr sealedDump) (fireIn metricsResultSuccess (newWorld 0)).
Proof.
  eexists.
  refine (proj2 (proj2 (@metadata_handler_outcomes toyLibrary createGateway strayPost
                          (currentRequest [0xCA; 0xFE])
                          [0xCA; 0xFE] (toyContext testConfig) (newWorld 0) eq_refl eq_refl))
            _ _ eq_refl eq_refl eq_refl).
Defined.

(** X9 on a client that fails: the transport error does not come out. *)
Lemma binary_app_handler_errors_witness :
  exists σ' e,
    @BinaryHTTPAppHandler_Handle toyLibrary
      {| httpHandler := FilteredHttpRequestHandler_Handle openFailingHandler |}
      (bytes_of_string ALLOWED_TARGET) (newWorld 0) = Ok (Some e) σ' /\
    (e = ErrPayloadMarshalling \/ e = ErrGatewayTargetForbidden \/
     e = ErrGatewayInternalServer).
Proof.
  eexists _, _. split; [reflexivity|].
  eapply (@binary_app_handler_errors toyLibrary
            {| httpHandler := FilteredHttpRequestHandler_Handle openFailingHandler |}
            (bytes_of_string ALLOWED_TARGET) (newWorld 0)).
  reflexivity.
Defined.


(** X11 on an allowlist entry whose value is false. *)
Lemma filtered_handler_permitted_witness :
  FilteredHttpRequestHandler_Handle falseFlagHandler (innerRequest ALLOWED_TARGET) (newWorld 0) =
  Ok (inr {| StatusCode := StatusOK; RespBody := [] |})
     (fireIn metricsResultSuccess
        (set_outbound [innerRequest ALLOWED_TARGET] (newWorld 0))).
Proof.
  apply (filtered_handler_permitted falseFlagHandler (innerRequest ALLOWED_TARGET)
           {| StatusCode := StatusOK; RespBody := [] |} (newWorld 0)).
  - right. exists {[ ALLOWED_TARGET := false ]}, false. split; reflexivity.
  - reflexivity.
  - reflexivity.
Defined.

(** X12 on two labels, distinct and repeated. *)
Lemma bag_fires_each_label_once_witness :
  returned ((Create metricsEventGatewayRequest ;;
             fireAll [metricsResultSuccess; "POST_response_status_200"]) (newWorld 0)) = true /\
  returned ((Create metricsEventGatewayRequest ;;
             fireAll [metricsResultSuccess; metricsResultSuccess]) (newWorld 0)) <> true.
Proof.
  split.
  - apply (proj1 (bag_fires_each_label_once metricsEventGatewayRequest
                    [metricsResultSuccess; "POST_response_status_200"] (newWorld 0))).
    apply NoDup_cons. split; [|apply NoDup_singleton].
    intros H. apply list_elem_of_singleton in H. discriminate.
  - intros H.
    apply (proj1 (bag_fires_each_label_once metricsEventGatewayRequest
                    [metricsResultSuccess; metricsResultSuccess] (newWorld 0))) in H.
    apply NoDup_cons in H as [H _]. apply H. left.
Defined.

(** X13 on the statuses 200 and 400 after a POST. *)
Lemma response_status_twice_witness :
  returned ((ResponseStatus MethodPost StatusOK ;; ResponseStatus MethodPost StatusBadRequest)
              (newWorld 0)) = true.
Proof.
  apply (response_status_twice MethodPost StatusOK StatusBadRequest (newWorld 0) eq_refl).
  discriminate.
Defined.

(** X14 on a GET with debug bodies off. *)
Lemma invalid_method_response_witness :
  let res := ServeHTTP (@gatewayHandler toyLibrary quietTarget)
               (getRequest defaultGatewayEndpoint) 0 in
  status res = Some StatusBadRequest /\
  body res = (bytes_of_string "Bad Request" ++ [10])%list.
Proof.
  destruct (@invalid_method_response toyLibrary quietTarget (getRequest defaultGatewayEndpoint) 0)
    as (_ & H2 & _ & H4 & _).
  - discriminate.
  - split; [exact H2 | exact H4].
Defined.

(** X15 on the key IDs 127 and 128. *)
Lemma legacyConfigID_characterised_witness :
  legacyConfigID 127 = legacyConfigID 128 /\ 0 <= legacyConfigID 127 < 255.
Proof.
  destruct (legacyConfigID_characterised 127 128) as (H1 & _ & H3); [lia | lia |].
  split; [apply H3; right; left; split; reflexivity | exact H1].
Defined.

(** X16 on a seed of three bytes. *)
Lemma xorLastByte_properties_witness :
  xorLastByte [1; 2; 3] = Some [1; 2; 252] /\ xorLastByte [1; 2; 252] = Some [1; 2; 3].
Proof.
  split; [reflexivity|].
  apply (proj2 (xorLastByte_properties [1; 2; 3]) [1; 2; 252] eq_refl).
Defined.

(** X17 on a list of two origins with a blank after the comma. *)
Lemma main_allowlist_witness :
  exists origins,
    mainAllowedOrigins "allowed.example, other.example" = Some origins /\
    origins !! "allowed.example" = Some true /\
    origins !! "other.example" = None /\
    origins !! " other.example" = Some true.
Proof.
  eexists. split; [reflexivity|].
  pose proof (proj1 (proj2 (proj2 (main_allowlist "allowed.example, other.example") _ eq_refl)))
    as H.
  split; [|split]; rewrite H; reflexivity.
Defined.

(** X18 on the same list: the host without the blank is refused. *)
Lemma main_allowlist_refuses_witness :
  FilteredHttpRequestHandler_Handle blankListHandler (innerRequest "other.example") (newWorld 0) =
  Ok (inl ErrGatewayTargetForbidden) (fireIn metricsResultTargetRequestForbidden (newWorld 0)).
Proof.
  eapply (proj2 (main_allowlist_refuses "allowed.example, other.example" _ blankListHandler
                   (innerRequest "other.example") (newWorld 0) eq_refl eq_refl eq_refl)).
  vm_compute. intros H.
  repeat (apply elem_of_cons in H as [H|H]; [discriminate|]).
  inversion H.
Defined.

(** * More on start-up and key discovery *)



(** X20: the key-discovery handlers do not look at the request: any
    method, path, header or body gets the same status, headers and body;
    only the prefix of the status label follows the method. *)
Theorem config_handlers_ignore_request (L : Library) (s : gatewayResource) (r r' : Request)
    (draw : Z) :
  let current := ServeHTTP (configHandler s) in
  let legacy := ServeHTTP (legacyConfigHandler s) in
  status (current r draw) = status (current r' draw) /\
  sent (current r draw) = sent (current r' draw) /\
  body (current r draw) = body (current r' draw) /\
  status (legacy r draw) = status (legacy r' draw) /\
  sent (legacy r draw) = sent (legacy r' draw) /\
  body (legacy r draw) = body (legacy r' draw).
Proof.
  intros current legacy. subst current legacy.
  destruct (configHandler_run s r draw) as (_ & H1 & H2 & H3).
  destruct (configHandler_run s r' draw) as (_ & H1' & H2' & H3').
  rewrite H1, H1', H2, H2', H3, H3'.
  split; [reflexivity|]. split; [reflexivity|]. split; [reflexivity|].
  destruct (Config (resGateway s) (legacyKeyID s)) as [config|] eqn:E.
  - destruct (legacyConfigHandler_run s r draw config E) as (_ & G1 & G2 & G3).
    destruct (legacyConfigHandler_run s r' draw config E) as (_ & G1' & G2' & G3').
    rewrite G1, G1', G2, G2', G3, G3'. repeat split.
  - destruct (legacyConfigHandler_unavailable s r draw E) as (_ & G1 & _ & G2 & G3).
    destruct (legacyConfigHandler_unavailable s r' draw E) as (_ & G1' & _ & G2' & G3').
    rewrite G1, G1', G2, G2', G3, G3'. repeat split.
Qed.


